(** * MassSpecGym: datasets, data module and the simulation training base class

    A shallow embedding of [massspecgym/datasets.py] and
    [massspecgym/models/simulation/base.py].

    Conventions of the embedding:
    - a Python call that may raise returns a [Py.result]; code that also
      mutates the module (its [metric_d] dictionary, the calls to
      [self.log]) lives in the state-and-exception monad [Py.M];
    - tensor elements are exact rationals ([Qc]); a division whose divisor is
      zero yields no finite number (torch gives [nan] or an infinity), which
      is the scalar [None];
    - one-dimensional tensors are lists; dictionaries are [gmap]s keyed by
      strings, except where the order or the duplicates of the rows matter
      (a pandas Series keeps both), which are lists;
    - functions of [massspecgym.simulation_utils] and
      [massspecgym.transforms], whose code is not part of these files, are
      Section variables. *)

From Stdlib Require Import QArith Qcanon.
From stdpp Require Import base numbers strings pretty list gmap fin_maps sorting.

Local Open Scope Qc_scope.

(** ** Python exceptions and the monads that carry them *)

Module Py.

Inductive exn : Type :=
| ValueError (msg : string)
| AttributeError (name : string)
| KeyError (key : string)
| IndexError
| TypeError
| RuntimeError (msg : string).

Inductive result (A : Type) : Type :=
| Ok (a : A)
| Raise (e : exn).
Arguments Ok {A} a.
Arguments Raise {A} e.

#[global] Instance result_ret : MRet result := λ A a, Ok a.
#[global] Instance result_bind : MBind result := λ A B f m,
  match m with
  | Ok a => f a
  | Raise e => Raise e
  end.

(** State and exceptions: the state reached when an exception is raised is
    kept, as Python keeps the mutations done before a [raise]. *)
Definition M (S A : Type) : Type := S → result A * S.

Definition ret {S A} (a : A) : M S A := λ s, (Ok a, s).

Definition bind {S A B} (m : M S A) (f : A → M S B) : M S B := λ s,
  match m s with
  | (Ok a, s') => f a s'
  | (Raise e, s') => (Raise e, s')
  end.

Definition lift {S A} (r : result A) : M S A := λ s, (r, s).

Definition modify {S} (f : S → S) : M S unit := λ s, (Ok tt, f s).

Definition get {S} : M S S := λ s, (Ok s, s).

(** [for x in xs: body(x)] *)
Fixpoint for_each {S A} (xs : list A) (body : A → M S unit) : M S unit :=
  match xs with
  | [] => ret tt
  | x :: xs' => bind (body x) (λ _, for_each xs' body)
  end.

(** [sub in s] on strings *)
Fixpoint contains (sub s : string) : bool :=
  String.prefix sub s ||
  match s with
  | EmptyString => false
  | String _ s' => contains sub s'
  end.

End Py.

Export Py.

Notation "'do' x <- m ; k" := (Py.bind m (λ x, k))
  (at level 10, x name, m at level 100, k at level 200).
Notation "m ;; k" := (Py.bind m (λ _, k))
  (at level 100, k at level 200, right associativity).

(** ** The tensor operations the model code calls *)

Module Torch.

(** A one-dimensional float tensor. *)
Definition tensor : Type := list Qc.

(** A scalar that may fail to be a finite number. *)
Definition scalar : Type := option Qc.

(** [torch.sum(t, dim=0)] of a one-dimensional tensor. *)
Definition sum (t : tensor) : Qc := foldl Qcplus 0 t.

(** [torch.ones_like(t)] *)
Definition ones_like (t : tensor) : tensor := map (λ _, 1) t.

(** [a * b] with broadcasting: tensors of one element stretch, otherwise
    the sizes must agree. *)
Definition mul (a b : tensor) : result tensor :=
  match a, b with
  | [x], _ => Ok (map (Qcmult x) b)
  | _, [y] => Ok (map (λ x, x * y) a)
  | _, _ =>
      if decide (length a = length b) then Ok (zip_with Qcmult a b)
      else Raise (RuntimeError "The size of tensor a must match the size of tensor b at non-singleton dimension 0")
  end.

(** [a / b] on zero-dimensional tensors. *)
Definition div (a b : Qc) : scalar :=
  if decide (b = 0) then None else Some (a / b).

(** [t * c] and [c - t] with a Python float [c]. *)
Definition mul_scalar (t : tensor) (c : Qc) : tensor := map (λ x, x * c) t.
Definition rsub_scalar (c : Qc) (t : tensor) : tensor := map (λ x, c - x) t.

(** [torch.max(t)] of an integer tensor: an empty tensor has no maximum. *)
Definition max (t : list Z) : result Z :=
  match t with
  | [] => Raise (RuntimeError "max(): Expected reduction dim to be specified for input.numel() == 0")
  | x :: t' => Ok (foldl Z.max x t')
  end.

(** [torch.stack(ts)] of zero-dimensional tensors. *)
Definition stack (ts : list Qc) : result tensor :=
  match ts with
  | [] => Raise (RuntimeError "stack expects a non-empty TensorList")
  | _ => Ok ts
  end.

End Torch.

(** ** [massspecgym/models/simulation/base.py] *)

Module SimulationBase.

(** The hyperparameters [save_hyperparameters] stores and the class reads:
    the seven named ones of [__init__] and those it takes from [**kwargs]. *)
Record HParams : Type := {
  optimizer : string;
  lr : Qc;
  weight_decay : Qc;
  lr_schedule : bool;
  ints_transform : string;
  mz_max : Qc;
  mz_bin_res : Qc;
  lr_decay_rate : Qc;
  lr_warmup_steps : Z;
  lr_decay_steps : Z;
  train_sample_weight : bool;
  eval_sample_weight : bool;
}.

(** *** [get_batch_metric_reduce_fn] *)

Definition _batch_metric_reduce (sample_weight : bool)
    (scores weights : Torch.tensor) : result (Torch.scalar * Qc * Qc) :=
  let weights :=
    if negb sample_weight then Torch.ones_like weights else weights in
  let w_total := Torch.sum weights in
  sw ← Torch.mul scores weights;
  let w_score_total := Torch.sum sw in
  let w_mean := Torch.div w_score_total w_total in
  mret (w_mean, w_score_total, w_total).

Definition get_batch_metric_reduce_fn (sample_weight : bool)
    : Torch.tensor → Torch.tensor → result (Torch.scalar * Qc * Qc) :=
  _batch_metric_reduce sample_weight.


(** *** What the class takes from outside these files

    [massspecgym.simulation_utils] (spectrum utilities, the learning-rate
    scheduler), the network a subclass installs in [_setup_model], and
    [torch.exp]. Keyword calls are modelled by a record of the keywords. *)

Module kw.
Record sparse_cosine_distance : Type := {
  true_mzs : Torch.tensor;
  true_logprobs : Torch.tensor;
  true_batch_idxs : list Z;
  pred_mzs : Torch.tensor;
  pred_logprobs : Torch.tensor;
  pred_batch_idxs : list Z;
  mz_max : Qc;
  mz_bin_res : Qc;
}.
End kw.

Inductive optimizer_cls : Type := Adam | AdamW | SGD.

Class Externals : Type := {
  Params : Type;
  Scheduler : Type;
  BatchRest : Type;
  sparse_cosine_distance : kw.sparse_cosine_distance → Torch.tensor;
  get_ints_transform_func : string → Torch.tensor → Torch.tensor;
  get_ints_untransform_func : string → Torch.tensor → list Z → Torch.tensor;
  batched_l1_normalize : Torch.tensor → list Z → Torch.tensor;
  safelog : Torch.tensor → Torch.tensor;
  torch_exp : Torch.tensor → Torch.tensor;
}.

Section model.

Context `{Ext : Externals}.

Record Optimizer : Type := {
  opt_cls : optimizer_cls;
  opt_params : Params;
  opt_lr : Qc;
  opt_weight_decay : Qc;
}.

(** [build_lr_scheduler(optimizer=.., decay_rate=.., warmup_steps=..,
    decay_steps=..)] *)
Variable build_lr_scheduler : Optimizer → Qc → Z → Z → Scheduler.

Record Batch : Type := {
  spec_mzs : Torch.tensor;
  spec_ints : Torch.tensor;
  spec_batch_idxs : list Z;
  weight : Torch.tensor;
  batch_rest : BatchRest;
}.

Record ModelOut : Type := {
  pred_mzs : Torch.tensor;
  pred_logprobs : Torch.tensor;
  pred_batch_idxs : list Z;
}.

(** [self.model.forward], called with the entries of the batch as keywords *)
Variable model_forward : Batch → ModelOut.

(** The module object: its hyperparameters, its parameters, and its other
    instance attributes by name, each with the text [str] gives for it. *)
Record Self : Type := {
  hparams : HParams;
  parameters : Params;
  attrs : gmap string string;
}.

(** The part of the module that the methods mutate. *)
Record LogCall : Type := {
  log_name : string;
  log_value : Torch.scalar;
  log_batch_size : option Z;
  log_sync_dist : bool;
  log_prog_bar : bool;
  log_on_step : option bool;
  log_on_epoch : option bool;
}.

Record ModuleState : Type := {
  metric_d : gmap string (list Qc * list Qc);
  logged : list LogCall;
}.

(** [self.log(name, value, ...)] *)
Definition log (c : LogCall) : M ModuleState unit :=
  modify (λ st, {| metric_d := metric_d st; logged := logged st ++ [c] |}).

(** [del self.metric_d[k]] *)
Definition del_metric (k : string) : M ModuleState unit := λ st,
  match metric_d st !! k with
  | Some _ =>
      (Ok tt, {| metric_d := delete k (metric_d st); logged := logged st |})
  | None => (Raise (KeyError k), st)
  end.

(** [self.<name>] for a name that is not one of the fields above *)
Definition getattr (self : Self) (name : string) : result string :=
  match attrs self !! name with
  | Some v => Ok v
  | None => Raise (AttributeError name)
  end.

(** *** [configure_optimizers]

    The first component of the result lists the optimizers that were
    constructed on the way. *)

Inductive cfg_value : Type :=
| CfgOptimizer (o : Optimizer)
| CfgLrScheduler (scheduler : Scheduler) (frequency : Z) (interval : string).

Definition configure_optimizers (self : Self)
    : list Optimizer * result (gmap string cfg_value) :=
  let optimizer_cls :=
    if String.eqb (optimizer (hparams self)) "adam" then Ok Adam
    else if String.eqb (optimizer (hparams self)) "adamw" then Ok AdamW
    else if String.eqb (optimizer (hparams self)) "sgd" then Ok SGD
    else
      v ← getattr self "optimizer";
      Raise (ValueError ("Unknown optimizer " +:+ v)) in
  match optimizer_cls with
  | Raise e => ([], Raise e)
  | Ok optimizer_cls =>
      let optimizer :=
        {| opt_cls := optimizer_cls;
           opt_params := parameters self;
           opt_lr := lr (hparams self);
           opt_weight_decay := weight_decay (hparams self) |} in
      let ret : gmap string cfg_value :=
        {[ "optimizer" := CfgOptimizer optimizer ]} in
      let ret :=
        if lr_schedule (hparams self) then
          let scheduler :=
            build_lr_scheduler optimizer
              (lr_decay_rate (hparams self))
              (lr_warmup_steps (hparams self))
              (lr_decay_steps (hparams self)) in
          <[ "lr_scheduler" := CfgLrScheduler scheduler 1 "step" ]> ret
        else ret in
      ([optimizer], Ok ret)
  end.

(** *** [_setup_spec_fns] and [_preproc_spec] *)

Definition ints_transform_func (self : Self) : Torch.tensor → Torch.tensor :=
  get_ints_transform_func (ints_transform (hparams self)).
Definition ints_untransform_func (self : Self)
    : Torch.tensor → list Z → Torch.tensor :=
  get_ints_untransform_func (ints_transform (hparams self)).
Definition ints_normalize_func (self : Self)
    : Torch.tensor → list Z → Torch.tensor :=
  batched_l1_normalize.

Definition _preproc_spec (self : Self) (spec_mzs spec_ints : Torch.tensor)
    (spec_batch_idxs : list Z) : Torch.tensor * Torch.tensor * list Z :=
  let spec_ints := Torch.mul_scalar spec_ints (Qc_of_Z 1000) in
  let spec_ints := ints_transform_func self spec_ints in
  let spec_ints := ints_normalize_func self spec_ints spec_batch_idxs in
  let spec_ints := safelog spec_ints in
  (spec_mzs, spec_ints, spec_batch_idxs).

(** *** [_setup_loss_fn]: the closure stored in [self.loss_fn] *)

Definition _loss_fn (self : Self)
    (true_mzs true_logprobs : Torch.tensor) (true_batch_idxs : list Z)
    (pred_mzs pred_logprobs : Torch.tensor) (pred_batch_idxs : list Z)
    : Torch.tensor :=
  let cos_dist :=
    sparse_cosine_distance
      {| kw.true_mzs := true_mzs;
         kw.true_logprobs := true_logprobs;
         kw.true_batch_idxs := true_batch_idxs;
         kw.pred_mzs := pred_mzs;
         kw.pred_logprobs := pred_logprobs;
         kw.pred_batch_idxs := pred_batch_idxs;
         kw.mz_max := mz_max (hparams self);
         kw.mz_bin_res := mz_bin_res (hparams self) |} in
  cos_dist.

Definition loss_fn (self : Self) := _loss_fn self.

(** *** [get_cos_sim_fn] *)

Definition _cos_sim_fn (self : Self) (untransform : bool)
    (pred_mzs pred_logprobs : Torch.tensor) (pred_batch_idxs : list Z)
    (true_mzs true_logprobs : Torch.tensor) (true_batch_idxs : list Z)
    : Torch.tensor :=
  let true_logprobs :=
    if untransform then
      safelog (ints_normalize_func self
        (ints_untransform_func self (torch_exp true_logprobs) true_batch_idxs)
        true_batch_idxs)
    else true_logprobs in
  let pred_logprobs :=
    if untransform then
      safelog (ints_normalize_func self
        (ints_untransform_func self (torch_exp pred_logprobs) pred_batch_idxs)
        pred_batch_idxs)
    else pred_logprobs in
  let cos_sim :=
    Torch.rsub_scalar 1
      (sparse_cosine_distance
         {| kw.pred_mzs := pred_mzs;
            kw.pred_logprobs := pred_logprobs;
            kw.pred_batch_idxs := pred_batch_idxs;
            kw.true_mzs := true_mzs;
            kw.true_logprobs := true_logprobs;
            kw.true_batch_idxs := true_batch_idxs;
            kw.mz_max := mz_max (hparams self);
            kw.mz_bin_res := mz_bin_res (hparams self) |}) in
  cos_sim.

Definition get_cos_sim_fn (self : Self) (untransform : bool) :=
  _cos_sim_fn self untransform.

(** *** [_setup_metric_fns] *)

Definition train_reduce_fn (self : Self) :=
  get_batch_metric_reduce_fn (train_sample_weight (hparams self)).
Definition eval_reduce_fn (self : Self) :=
  get_batch_metric_reduce_fn (eval_sample_weight (hparams self)).
Definition cos_sim_fn (self : Self) := get_cos_sim_fn self true.
Definition cos_sim_obj_fn (self : Self) := get_cos_sim_fn self false.

(** *** [step] *)

Inductive out_value : Type :=
| OutScalar (x : Torch.scalar)
| OutTensor (t : Torch.tensor)
| OutIdxs (t : list Z).

Definition step (self : Self) (batch : Batch) (metric_pref : string)
    : M ModuleState (gmap string out_value) :=
  let '(true_mzs, true_logprobs, true_batch_idxs) :=
    _preproc_spec self
      (spec_mzs batch) (spec_ints batch) (spec_batch_idxs batch) in
  let out_d := model_forward batch in
  let pred_mzs := pred_mzs out_d in
  let pred_logprobs := pred_logprobs out_d in
  let pred_batch_idxs := pred_batch_idxs out_d in
  let loss :=
    loss_fn self true_mzs true_logprobs true_batch_idxs
      pred_mzs pred_logprobs pred_batch_idxs in
  let reduce_fn :=
    if String.eqb metric_pref "train_" then train_reduce_fn self
    else eval_reduce_fn self in
  do reduced <- lift (reduce_fn loss (weight batch));
  let mean_loss := reduced.1.1 in
  do batch_size <- lift (m ← Torch.max pred_batch_idxs; mret (m + 1)%Z);
  log {| log_name := metric_pref +:+ "loss_step";
         log_value := mean_loss;
         log_batch_size := Some batch_size;
         log_sync_dist := true;
         log_prog_bar := true;
         log_on_step := Some true;
         log_on_epoch := Some false |};;
  let out_d : gmap string out_value :=
    {[ "loss" := OutScalar mean_loss;
       "pred_mzs" := OutTensor pred_mzs;
       "pred_logprobs" := OutTensor pred_logprobs;
       "pred_batch_idxs" := OutIdxs pred_batch_idxs;
       "true_mzs" := OutTensor true_mzs;
       "true_logprobs" := OutTensor true_logprobs;
       "true_batch_idxs" := OutIdxs true_batch_idxs ]} in
  ret out_d.

(** *** [on_train_epoch_end] and [on_validation_epoch_end]

    The two bodies differ in the substring only. An entry [v] of
    [metric_d] holds the weighted score totals in [v[0]] and the weight
    totals in [v[1]]. *)

(** the body of the loop over the selected entries *)
Definition log_and_delete (kv : string * (list Qc * list Qc))
    : M ModuleState unit :=
  let k := kv.1 in
  let v := kv.2 in
  do wmean_v <- lift (
    num ← Torch.stack v.1;
    den ← Torch.stack v.2;
    mret (Torch.div (Torch.sum num) (Torch.sum den)));
  log {| log_name := k;
         log_value := wmean_v;
         log_batch_size := None;
         log_sync_dist := true;
         log_prog_bar := false;
         log_on_step := None;
         log_on_epoch := None |};;
  del_metric k.

Definition epoch_end_for (sub : string) : M ModuleState unit :=
  do st <- get;
  let metrics :=
    filter (λ kv, contains sub kv.1) (map_to_list (metric_d st)) in
  for_each metrics log_and_delete.

Definition on_train_epoch_end : M ModuleState unit :=
  epoch_end_for "train_".

Definition on_validation_epoch_end : M ModuleState unit :=
  epoch_end_for "val_".

(** The two hooks, to speak of either. *)
Inductive epoch_hook : Type := TrainEpochEnd | ValidationEpochEnd.

Definition run_hook (h : epoch_hook) : M ModuleState unit :=
  match h with
  | TrainEpochEnd => on_train_epoch_end
  | ValidationEpochEnd => on_validation_epoch_end
  end.

End model.

End SimulationBase.

(** ** [massspecgym/datasets.py] *)

Module Datasets.

(** *** matchms spectra *)

Inductive meta_value : Type :=
| MInt (z : Z)
| MFloat (q : Qc)
| MStr (s : string).

Record Spectrum : Type := {
  metadata : gmap string meta_value;
  peaks : list (Qc * Qc);
}.

(** [s.get(key)]: the value, or Python's [None] *)
Definition Spectrum_get (s : Spectrum) (key : string) : option meta_value :=
  metadata s !! key.

(** [s.metadata[key]] *)
Definition metadata_getitem (s : Spectrum) (key : string) : result meta_value :=
  match metadata s !! key with
  | Some v => Ok v
  | None => Raise (KeyError key)
  end.

(** *** pandas frames as [read_csv] gives them

    A frame has named columns and rows of cells; a row shorter than the
    header is padded with NaN. A Series keeps, row by row, the label of
    its index and its value: labels may repeat. *)

Inductive cell : Type :=
| CInt (z : Z)
| CStr (s : string)
| CNaN.

#[global] Instance cell_eq_dec : EqDecision cell.
Proof. solve_decision. Defined.

#[global] Instance cell_countable : Countable cell.
Proof.
  refine (inj_countable'
    (λ c, match c with
          | CInt z => inl z
          | CStr s => inr (inl s)
          | CNaN => inr (inr ())
          end)
    (λ x, match x with
          | inl z => CInt z
          | inr (inl s) => CStr s
          | inr (inr _) => CNaN
          end) _).
  by intros [].
Defined.

Record DataFrame : Type := {
  columns : list string;
  rows : list (list cell);
}.

Abbreviation Series := (list (cell * cell)).

Definition column_position (df : DataFrame) (name : string) : result nat :=
  match list_find (λ c, c = name) (columns df) with
  | Some (j, _) => Ok j
  | None => Raise (KeyError name)
  end.

Definition row_cell (r : list cell) (j : nat) : cell := default CNaN (r !! j).

(** [df.set_index(idx)[col]] *)
Definition set_index_getitem (df : DataFrame) (idx col : string)
    : result Series :=
  ji ← column_position df idx;
  jc ← column_position df col;
  mret ((λ r, (row_cell r ji, row_cell r jc)) <$> rows df).

Definition Series_index (s : Series) : list cell := s.*1.
Definition Series_values (s : Series) : list cell := s.*2.

(** [series[i]] for an integer [i], by label: the value when one row
    carries the label, the Series of the values when several do. *)
Inductive lookup : Type :=
| Scalar (c : cell)
| SubSeries (cs : list cell).

Definition Series_getitem (s : Series) (i : Z) : result lookup :=
  match (filter (λ lv, lv.1 = CInt i) s).*2 with
  | [] => Raise (KeyError (pretty i))
  | [c] => Ok (Scalar c)
  | cs => Ok (SubSeries cs)
  end.

(** *** numpy arrays of the split mask *)

Inductive ndarray : Type :=
| Arr1 (a : list cell)
| Arr2 (a : list (list cell)).

Definition as_scalar (x : lookup) : option cell :=
  match x with Scalar c => Some c | SubSeries _ => None end.

Definition as_row (x : lookup) : option (list cell) :=
  match x with Scalar _ => None | SubSeries cs => Some cs end.

Definition same_lengths (a : list (list cell)) : bool :=
  match a with
  | [] => true
  | r :: a' => forallb (λ r', Nat.eqb (length r') (length r)) a'
  end.

(** [np.array(xs)]: scalars give a vector, Series of one length a matrix,
    anything else is refused as inhomogeneous. *)
Definition np_array (xs : list lookup) : result ndarray :=
  match mapM as_scalar xs with
  | Some a => Ok (Arr1 a)
  | None =>
      match mapM as_row xs with
      | Some a =>
          if same_lengths a then Ok (Arr2 a)
          else Raise (ValueError "setting an array element with a sequence. The requested array has an inhomogeneous shape")
      | None => Raise (ValueError "setting an array element with a sequence. The requested array has an inhomogeneous shape")
      end
  end.

(** the positions of [true], counted from [i] *)
Fixpoint where_from (i : nat) (mask : list bool) : list nat :=
  match mask with
  | [] => []
  | b :: mask' => (if b then [i] else []) ++ where_from (S i) mask'
  end.

(** the row numbers of the [true] entries of a matrix, row by row *)
Fixpoint where2_from (i : nat) (mask : list (list bool)) : list nat :=
  match mask with
  | [] => []
  | r :: mask' =>
      replicate (length (filter (λ b, b = true) r)) i
      ++ where2_from (S i) mask'
  end.

(** [a == v] on a vector of cells *)
Definition eq_mask (v : string) (a : list cell) : list bool :=
  (λ c, bool_decide (c = CStr v)) <$> a.

(** [np.where(a == v)[0]] *)
Definition np_where_eq (a : ndarray) (v : string) : list nat :=
  match a with
  | Arr1 a => where_from 0 (eq_mask v a)
  | Arr2 a => where2_from 0 (eq_mask v <$> a)
  end.

(** the double quote, for the messages *)
Definition dq : string := String (Ascii.ascii_of_nat 34) EmptyString.

(** *** What the module takes from outside: the files, the transforms
    of [massspecgym.transforms], and the builtin [int]. *)

Class Externals : Type := {
  Path : Type;
  SpecT : Type;
  MolT : Type;
  CandidatesFrame : Type;
  load_from_mgf : Path → list Spectrum;
  read_csv : Path → DataFrame;
  read_json : Path → CandidatesFrame;
  frame_index : CandidatesFrame → list Z;
  int : option meta_value → result Z;
  MolToInChIKey : unit → option meta_value → MolT;
}.

Section datasets.

Context `{Ext : Externals}.

Definition SpecTransform : Type := Spectrum → SpecT.
Definition MolTransform : Type := option meta_value → MolT.

(** *** [MassSpecDataset] *)

Record MassSpecDataset : Type := {
  mgf_pth : Path;
  spectra : list Spectrum;
  spectra_idx : list Z;
  spec_preproc : SpecTransform;
  mol_preproc : MolTransform;
}.

Definition __init__ (mgf_pth : Path) (spec_preproc : SpecTransform)
    (mol_preproc : MolTransform) : result MassSpecDataset :=
  let spectra := load_from_mgf mgf_pth in
  spectra_idx ← mapM (λ s, int (Spectrum_get s "id")) spectra;
  mret {| mgf_pth := mgf_pth;
          spectra := spectra;
          spectra_idx := spectra_idx;
          spec_preproc := spec_preproc;
          mol_preproc := mol_preproc |}.

Definition __len__ (self : MassSpecDataset) : nat := length (spectra self).

Inductive item_value : Type :=
| ItemSpec (x : SpecT)
| ItemMol (x : MolT)
| ItemMeta (x : meta_value).

(** [self.spectra[i]] for an index counted from the front *)
Definition spectra_getitem (self : MassSpecDataset) (i : nat)
    : result Spectrum :=
  match spectra self !! i with
  | Some s => Ok s
  | None => Raise IndexError
  end.

Definition __getitem__ (self : MassSpecDataset) (i : nat)
    : result (gmap string item_value) :=
  s_spec ← spectra_getitem self i;
  s_mol ← spectra_getitem self i;
  let item : gmap string item_value :=
    {[ "spec" := ItemSpec (spec_preproc self s_spec);
       "mol" := ItemMol (mol_preproc self (Spectrum_get s_mol "smiles")) ]} in
  update ← mapM (λ k,
              s ← spectra_getitem self i;
              v ← metadata_getitem s k;
              mret (k, ItemMeta v)) ["precursor_mz"; "adduct"];
  let item := list_to_map update ∪ item in
  mret item.

(** *** [RetrievalDataset]

    Written with [def]: a function of one argument. Its body binds two
    local functions and ends; the default value of
    [candidate_mol_transform] is computed when [__init__] is bound. The
    names of the local functions carry the prefix [inner]. *)

Inductive pyvalue : Type :=
| PyNone
| PyDataset (d : MassSpecDataset)
| PyMolTransform (t : MolTransform).

Record RetrievalAttrs : Type := {
  candidates : CandidatesFrame;
  candidates_idx : list Z;
  candidate_mol_transform : MolTransform;
}.

Definition RetrievalDataset {X : Type} (MassSpecDataset : X) : pyvalue :=
  let default_candidate_mol_transform : MolTransform := MolToInChIKey () in
  let inner__init__ :=
    λ (candidates_pth : Path) (candidate_mol_transform : option MolTransform),
      let candidates := read_json candidates_pth in
      {| candidates := candidates;
         candidates_idx := frame_index candidates;
         candidate_mol_transform :=
           default default_candidate_mol_transform candidate_mol_transform |} in
  let inner__getitem__ :=
    λ (self : RetrievalAttrs) (i : nat),
      (* [super()] has no class to start from inside a function *)
      @Raise (gmap string item_value)
        (RuntimeError "super(): __class__ cell not found") in
  PyNone.

(** *** [MassSpecDataModule] *)

Record Subset : Type := {
  subset_dataset : MassSpecDataset;
  indices : list nat;
}.

Record MassSpecDataModule : Type := {
  dataset : MassSpecDataset;
  split_pth : Path;
  batch_size : Z;
  num_workers : Z;
  split : option Series;
  train_dataset : option Subset;
  val_dataset : option Subset;
  test_dataset : option Subset;
}.

Definition DataModule__init__ (dataset : MassSpecDataset) (split_pth : Path)
    (batch_size num_workers : Z) : MassSpecDataModule :=
  {| dataset := dataset;
     split_pth := split_pth;
     batch_size := batch_size;
     num_workers := num_workers;
     split := None;
     train_dataset := None;
     val_dataset := None;
     test_dataset := None |}.

Definition columns_message : string :=
  "Split file must contain " +:+ dq +:+ "id" +:+ dq +:+ " and "
  +:+ dq +:+ "fold" +:+ dq +:+ " columns.".

Definition folds_message : string :=
  dq +:+ "Folds" +:+ dq +:+ " column must contain only and all of "
  +:+ dq +:+ "train" +:+ dq +:+ ", " +:+ dq +:+ "val" +:+ dq +:+ ", and "
  +:+ dq +:+ "test" +:+ dq +:+ " values.".

(** [prepare_data]; printing the split at its end leaves no trace here. *)
Definition prepare_data (self : MassSpecDataModule)
    : result MassSpecDataModule :=
  let df := read_csv (split_pth self) in
  if decide ((list_to_set (columns df) : gset string) ≠ {[ "id"; "fold" ]})
  then Raise (ValueError columns_message)
  else
    split ← set_index_getitem df "id" "fold";
    if decide ((list_to_set (Series_values split) : gset cell)
               ≠ {[ CStr "train"; CStr "val"; CStr "test" ]})
    then Raise (ValueError folds_message)
    else
      mret {| dataset := dataset self;
              split_pth := split_pth self;
              batch_size := batch_size self;
              num_workers := num_workers self;
              split := Some split;
              train_dataset := train_dataset self;
              val_dataset := val_dataset self;
              test_dataset := test_dataset self |}.

Definition setup (self : MassSpecDataModule) : result MassSpecDataModule :=
  split ← match split self with
          | Some s => Ok s
          | None => Raise (AttributeError "split")
          end;
  looked_up ← mapM (Series_getitem split) (spectra_idx (dataset self));
  split_mask ← np_array looked_up;
  let subset_of fold :=
    {| subset_dataset := dataset self;
       indices := np_where_eq split_mask fold |} in
  mret {| dataset := dataset self;
          split_pth := split_pth self;
          batch_size := batch_size self;
          num_workers := num_workers self;
          split := Some split;
          train_dataset := Some (subset_of "train");
          val_dataset := Some (subset_of "val");
          test_dataset := Some (subset_of "test") |}.

End datasets.

End Datasets.

(** * Specification-level notions *)

Module Spec.

(** [index_sum n f] is the sum of [f i] over [i < n]. *)
Fixpoint index_sum (n : nat) (f : nat → Qc) : Qc :=
  match n with
  | O => 0
  | S k => f O + index_sum k (λ i, f (S i))
  end.

(** The [i]-th element of a vector. *)
Definition at_ (v : list Qc) (i : nat) : Qc := nth i v 0.

(** [a] divided by [b], where that is a number. *)
Definition quotient (a b : Qc) : option Qc :=
  if decide (b = 0) then None else Some (a / b).


Section step.

Import SimulationBase.
Context `{Ext : Externals}.
Variable model_forward : Batch → ModelOut.

(** The true spectrum after preprocessing: intensities times 1000, the
    configured transform, the normalisation per spectrum, then [safelog]. *)
Definition preprocessed_logprobs (self : Self) (batch : Batch)
    : Torch.tensor :=
  safelog
    (batched_l1_normalize
       (get_ints_transform_func (ints_transform (hparams self))
          ((λ x, x * Qc_of_Z 1000) <$> spec_ints batch))
       (spec_batch_idxs batch)).

(** The distance of each sample of the batch. *)
Definition sample_distances (self : Self) (batch : Batch) : Torch.tensor :=
  sparse_cosine_distance
    {| kw.true_mzs := spec_mzs batch;
       kw.true_logprobs := preprocessed_logprobs self batch;
       kw.true_batch_idxs := spec_batch_idxs batch;
       kw.pred_mzs := pred_mzs (model_forward batch);
       kw.pred_logprobs := pred_logprobs (model_forward batch);
       kw.pred_batch_idxs := pred_batch_idxs (model_forward batch);
       kw.mz_max := mz_max (hparams self);
       kw.mz_bin_res := mz_bin_res (hparams self) |}.

(** The reduction a step uses. *)
Definition step_reduce_fn (self : Self) (metric_pref : string) :=
  if decide (metric_pref = "train_") then train_reduce_fn self
  else eval_reduce_fn self.

End step.

(** The sum of a list of numbers. *)
Definition total (l : list Qc) : Qc := index_sum (length l) (at_ l).

(** What an epoch hook reports for an entry of [metric_d]: the sum of its
    weighted score totals divided by the sum of its weight totals. *)
Definition epoch_mean (v : list Qc * list Qc) : option Qc :=
  quotient (total v.1) (total v.2).

(** The call to [self.log] that reports it. *)
Definition epoch_log (kv : string * (list Qc * list Qc)) : SimulationBase.LogCall :=
  {| SimulationBase.log_name := kv.1;
     SimulationBase.log_value := epoch_mean kv.2;
     SimulationBase.log_batch_size := None;
     SimulationBase.log_sync_dist := true;
     SimulationBase.log_prog_bar := false;
     SimulationBase.log_on_step := None;
     SimulationBase.log_on_epoch := None |}.

(** The substring by which a hook selects its entries. *)
Definition hook_substring (h : SimulationBase.epoch_hook) : string :=
  match h with
  | SimulationBase.TrainEpochEnd => "train_"
  | SimulationBase.ValidationEpochEnd => "val_"
  end.

End Spec.

(** ** The claims about the datasets, as predicates *)

Module DataSpec.

Import Datasets.

(** The cells of the column [name] of a frame, row by row. *)
Definition column_values (df : DataFrame) (name : string) : list cell :=
  match list_find (λ c, c = name) (columns df) with
  | Some (j, _) => (λ r, row_cell r j) <$> rows df
  | None => []
  end.

Definition fold_names : list string := ["train"; "val"; "test"].

(** The split gives the fold [fold] to the spectrum id [id]. *)
Definition assigns (split : Series) (id : Z) (fold : string) : Prop :=
  (CInt id, CStr fold) ∈ split.

(** How many rows of the split carry the id [id]. *)
Definition occurrences (split : Series) (id : Z) : nat :=
  length (filter (λ l, l = CInt id) (Series_index split)).

Section predicates.

Context `{Ext : Externals}.

(** The item the dataset is to return for the spectrum [s]. *)
Definition expected_item (self : MassSpecDataset) (s : Spectrum)
    (precursor_mz adduct : meta_value) : gmap string item_value :=
  {[ "spec" := ItemSpec (spec_preproc self s);
     "mol" := ItemMol (mol_preproc self (metadata s !! "smiles"));
     "precursor_mz" := ItemMeta precursor_mz;
     "adduct" := ItemMeta adduct ]}.

(** The indices of the subset of the fold [fold]. *)
Definition members (dm : MassSpecDataModule) (fold : string) : list nat :=
  let subset :=
    if String.eqb fold "train" then train_dataset dm
    else if String.eqb fold "val" then val_dataset dm
    else if String.eqb fold "test" then test_dataset dm
    else None in
  match subset with
  | Some s => indices s
  | None => []
  end.

(** The three subsets partition the indices of the dataset: each index
    is in exactly one of them, the one of the fold that the split gives
    to the id of its spectrum; the subsets hold indices of the dataset
    only, in increasing order. *)
Definition is_partition (dm : MassSpecDataModule) (split : Series) : Prop :=
  let idx := spectra_idx (dataset dm) in
  (∀ i id, idx !! i = Some id →
     ∃ fold, fold ∈ fold_names ∧ assigns split id fold
             ∧ i ∈ members dm fold
             ∧ ∀ fold', fold' ∈ fold_names → i ∈ members dm fold' →
                        fold' = fold)
  ∧ (∀ fold i, fold ∈ fold_names → i ∈ members dm fold → (i < length idx)%nat)
  ∧ (∀ fold, fold ∈ fold_names → StronglySorted lt (members dm fold)).

(** The splitting claim with the proviso that every id of the dataset
    occurs in the id column of the split file. *)
Definition split_claim (self : MassSpecDataModule) : Prop :=
  ∀ prepared ready split,
    prepare_data self = Ok prepared →
    Datasets.split prepared = Some split →
    setup prepared = Ok ready →
    (∀ id, id ∈ spectra_idx (dataset self) → CInt id ∈ Series_index split) →
    is_partition ready split.

(** The item claim for every index below the length. *)
Definition getitem_claim (self : MassSpecDataset) : Prop :=
  ∀ i, (i < __len__ self)%nat →
    ∃ s item,
      spectra self !! i = Some s
      ∧ __getitem__ self i = Ok item
      ∧ item !! "spec" = Some (ItemSpec (spec_preproc self s))
      ∧ item !! "mol"
        = Some (ItemMol (mol_preproc self (metadata s !! "smiles")))
      ∧ item !! "precursor_mz" = ItemMeta <$> metadata s !! "precursor_mz"
      ∧ item !! "adduct" = ItemMeta <$> metadata s !! "adduct".

End predicates.

End DataSpec.

(** ** Small concrete instances *)

Module Examples.

Import Datasets.

Definition spectrum_with (fields : list (string * meta_value)) : Spectrum :=
  {| metadata := list_to_map fields; peaks := [] |}.

(** Two spectra with all their metadata. *)
Definition full_spectra : list Spectrum :=
  [ spectrum_with [("id", MInt 7); ("smiles", MStr "CCO");
                   ("precursor_mz", MInt 47); ("adduct", MStr "[M+H]+")];
    spectrum_with [("id", MInt 8); ("smiles", MStr "CO");
                   ("precursor_mz", MInt 33); ("adduct", MStr "[M+H]+")] ].

(** A spectrum that has no adduct. *)
Definition bare_spectra : list Spectrum :=
  [ spectrum_with [("id", MInt 7); ("smiles", MStr "CCO");
                   ("precursor_mz", MInt 47)] ].

(** A split file in which each id occurs once. *)
Definition clean_split : DataFrame :=
  {| columns := ["id"; "fold"];
     rows := [ [CInt 7; CStr "train"]; [CInt 8; CStr "val"];
               [CInt 9; CStr "test"] ] |}.

(** A split file in which every id occurs twice, the id 7 in two folds. *)
Definition repeated_split : DataFrame :=
  {| columns := ["id"; "fold"];
     rows := [ [CInt 7; CStr "train"]; [CInt 7; CStr "val"];
               [CInt 8; CStr "test"]; [CInt 8; CStr "test"] ] |}.

(** A split file without any row of the test fold. *)
Definition no_test_split : DataFrame :=
  {| columns := ["id"; "fold"];
     rows := [ [CInt 7; CStr "train"]; [CInt 8; CStr "val"] ] |}.

Definition files : Externals :=
  {| Path := string;
     SpecT := nat;
     MolT := option meta_value;
     CandidatesFrame := unit;
     load_from_mgf := λ pth,
       if String.eqb pth "bare.mgf" then bare_spectra else full_spectra;
     read_csv := λ pth,
       if String.eqb pth "repeated.csv" then repeated_split
       else if String.eqb pth "no_test.csv" then no_test_split
       else clean_split;
     read_json := λ _, ();
     frame_index := λ _, [];
     int := λ v,
       match v with
       | Some (MInt z) => Ok z
       | _ => Raise TypeError
       end;
     MolToInChIKey := λ _ smiles, smiles |}.

Definition count_peaks : @SpecTransform files := λ s, length (peaks s).
Definition keep_smiles : @MolTransform files := λ smiles, smiles.

Definition dataset_of (pth : string) : result (@MassSpecDataset files) :=
  @__init__ files pth count_peaks keep_smiles.

Definition full_dataset : @MassSpecDataset files :=
  @Build_MassSpecDataset files "full.mgf" full_spectra [7; 8]%Z
    count_peaks keep_smiles.

Definition bare_dataset : @MassSpecDataset files :=
  @Build_MassSpecDataset files "bare.mgf" bare_spectra [7]%Z
    count_peaks keep_smiles.

Definition module_of (csv : string) : @MassSpecDataModule files :=
  @DataModule__init__ files full_dataset csv 32 0.

(** The module over [repeated_split] after [prepare_data], and after
    [setup]: the index 0 is in the train and in the validation subset. *)
Definition repeated_series : Series :=
  [ (CInt 7, CStr "train"); (CInt 7, CStr "val");
    (CInt 8, CStr "test"); (CInt 8, CStr "test") ].

Definition repeated_prepared : @MassSpecDataModule files :=
  @Build_MassSpecDataModule files full_dataset "repeated.csv" 32 0
    (Some repeated_series) None None None.

Definition repeated_ready : @MassSpecDataModule files :=
  @Build_MassSpecDataModule files full_dataset "repeated.csv" 32 0
    (Some repeated_series)
    (Some (@Build_Subset files full_dataset [0]%nat))
    (Some (@Build_Subset files full_dataset [0]%nat))
    (Some (@Build_Subset files full_dataset [1; 1]%nat)).

(** The module over [clean_split] after [prepare_data]. *)
Definition clean_series : Series :=
  [ (CInt 7, CStr "train"); (CInt 8, CStr "val"); (CInt 9, CStr "test") ].

Definition clean_prepared : @MassSpecDataModule files :=
  @Build_MassSpecDataModule files full_dataset "clean.csv" 32 0
    (Some clean_series) None None None.

(** A module of the simulation class over trivial utilities. *)
Definition utilities : SimulationBase.Externals :=
  {| SimulationBase.Params := list string;
     SimulationBase.Scheduler := Z;
     SimulationBase.BatchRest := unit;
     SimulationBase.sparse_cosine_distance := λ k,
       zip_with Qcminus (SimulationBase.kw.true_logprobs k)
         (SimulationBase.kw.pred_logprobs k);
     SimulationBase.get_ints_transform_func := λ _ t, t;
     SimulationBase.get_ints_untransform_func := λ _ t _, t;
     SimulationBase.batched_l1_normalize := λ t _, t;
     SimulationBase.safelog := λ t, t;
     SimulationBase.torch_exp := λ t, t |}.

Definition hparams_with (optimizer : string) (lr_schedule : bool)
    : SimulationBase.HParams :=
  {| SimulationBase.optimizer := optimizer;
     SimulationBase.lr := Qc_of_Z 1;
     SimulationBase.weight_decay := 0;
     SimulationBase.lr_schedule := lr_schedule;
     SimulationBase.ints_transform := "none";
     SimulationBase.mz_max := Qc_of_Z 1500;
     SimulationBase.mz_bin_res := Qc_of_Z 1;
     SimulationBase.lr_decay_rate := 1;
     SimulationBase.lr_warmup_steps := 100;
     SimulationBase.lr_decay_steps := 1000;
     SimulationBase.train_sample_weight := true;
     SimulationBase.eval_sample_weight := false |}.

Definition module_with (optimizer : string) (lr_schedule : bool)
    : @SimulationBase.Self utilities :=
  @SimulationBase.Build_Self utilities
    (hparams_with optimizer lr_schedule)
    ["model.weight"; "model.bias"]
    {[ "model" := "Linear()" ]}.

Definition scheduler_of (o : @SimulationBase.Optimizer utilities)
    (decay_rate : Qc) (warmup_steps decay_steps : Z) : Z :=
  (warmup_steps + decay_steps)%Z.

(** Accumulated metrics at the end of an epoch. *)
Definition end_of_epoch : SimulationBase.ModuleState :=
  {| SimulationBase.metric_d :=
       {[ "train_cos_sim" := ([Qc_of_Z 3; Qc_of_Z 5], [Qc_of_Z 4; Qc_of_Z 4]);
          "val_cos_sim" := ([Qc_of_Z 1], [Qc_of_Z 2]) ]};
     SimulationBase.logged := [] |}.

(** The same module after [on_train_epoch_end]. *)
Definition after_train_epoch : SimulationBase.ModuleState :=
  {| SimulationBase.metric_d :=
       {[ "val_cos_sim" := ([Qc_of_Z 1], [Qc_of_Z 2]) ]};
     SimulationBase.logged :=
       [ Spec.epoch_log
           ("train_cos_sim",
            ([Qc_of_Z 3; Qc_of_Z 5], [Qc_of_Z 4; Qc_of_Z 4])) ] |}.

End Examples.

(** ** The rest of the training hooks

    [training_step], [validation_step] and the batch-end hooks of
    [massspecgym/models/base.py], which call [step] and [on_batch_end], and
    the remaining methods of the simulation class. *)

Module Hooks.

Import SimulationBase.

(** [raise NotImplementedError]: the class derives from RuntimeError, and
    is kept here as a RuntimeError that carries its name. *)
Definition NotImplementedError : exn := RuntimeError "NotImplementedError".

(** [d[key]] on a dictionary *)
Definition dict_getitem {V} (d : gmap string V) (key : string) : result V :=
  match d !! key with
  | Some v => Ok v
  | None => Raise (KeyError key)
  end.

Section hooks.

Context `{Ext : Externals}.
Variable model_forward : Batch → ModelOut.

(** [SimulationMassSpecGymModel.__init__] leaves [self.metric_d = {}];
    nothing has been logged yet. *)
Definition initial_state : ModuleState :=
  {| metric_d := ∅; logged := [] |}.

(** [MassSpecGymModel.training_step] and [validation_step] *)
Definition training_step (self : Self) (batch : Batch) (batch_idx : Z)
    : M ModuleState (gmap string out_value) :=
  step model_forward self batch "train_".

Definition validation_step (self : Self) (batch : Batch) (batch_idx : Z)
    : M ModuleState (gmap string out_value) :=
  step model_forward self batch "val_".

(** [SimulationMassSpecGymModel.on_batch_end]: its body is [pass] *)
Definition on_batch_end (self : Self) (outputs : gmap string out_value)
    (batch : Batch) (batch_idx : Z) (metric_pref : string)
    : M ModuleState unit :=
  ret tt.

(** [MassSpecGymModel.on_train_batch_end] and [on_validation_batch_end] *)
Definition on_train_batch_end (self : Self) (outputs : gmap string out_value)
    (batch : Batch) (batch_idx : Z) : M ModuleState unit :=
  on_batch_end self outputs batch batch_idx "train_".

Definition on_validation_batch_end (self : Self)
    (outputs : gmap string out_value) (batch : Batch) (batch_idx : Z)
    : M ModuleState unit :=
  on_batch_end self outputs batch batch_idx "val_".

(** [evaluate_cos_similarity_step] and [evaluate_hit_rate_step] *)
Definition evaluate_cos_similarity_step {V} (self : Self)
    (specs_pred specs : V) (metric_pref : string) : M ModuleState unit :=
  lift (Raise NotImplementedError).

Definition evaluate_hit_rate_step (self : Self)
    (pred_mzs pred_logprobs : Torch.tensor) (pred_batch_idxs : list Z)
    (true_mzs true_logprobs : Torch.tensor) (true_batch_idxs : list Z)
    (weight : Torch.tensor) (metric_pref : string) : M ModuleState unit :=
  lift (Raise NotImplementedError).

(** [on_test_batch_end]: the outputs and the batch are dictionaries *)
Definition on_test_batch_end {V} (self : Self) (outputs batch : gmap string V)
    (batch_idx : Z) : M ModuleState unit :=
  let metric_pref := "_test" in
  do specs_pred <- lift (dict_getitem outputs "spec_pred");
  do specs <- lift (dict_getitem batch "spec");
  evaluate_cos_similarity_step self specs_pred specs metric_pref.

(** A call that the training loop makes on the module between two epoch
    ends. *)
Inductive loop_call : Type :=
| TrainingStep (batch : Batch) (batch_idx : Z)
| ValidationStep (batch : Batch) (batch_idx : Z)
| OnTrainBatchEnd (outputs : gmap string out_value) (batch : Batch)
    (batch_idx : Z)
| OnValidationBatchEnd (outputs : gmap string out_value) (batch : Batch)
    (batch_idx : Z).

Definition run_call (self : Self) (c : loop_call) : M ModuleState unit :=
  match c with
  | TrainingStep batch batch_idx =>
      do _ <- training_step self batch batch_idx; ret tt
  | ValidationStep batch batch_idx =>
      do _ <- validation_step self batch batch_idx; ret tt
  | OnTrainBatchEnd outputs batch batch_idx =>
      on_train_batch_end self outputs batch batch_idx
  | OnValidationBatchEnd outputs batch batch_idx =>
      on_validation_batch_end self outputs batch batch_idx
  end.

(** The calls in turn, up to the first that raises. *)
Definition run_calls (self : Self) (cs : list loop_call) : M ModuleState unit :=
  for_each cs (run_call self).

End hooks.

End Hooks.

(** ** The data loaders of [MassSpecDataModule] *)

Module Loaders.

Import Datasets.

Section loaders.

Context `{Ext : Externals}.

(** [DataLoader(dataset, batch_size=.., shuffle=.., num_workers=..)] of
    torch, which checks its arguments and may refuse them. *)
Variable LoaderT : Type.
Variable DataLoader : Subset → Z → bool → Z → result LoaderT.

(** [self.<name>] for a subset that [setup] assigns *)
Definition subset_attr (name : string) (s : option Subset) : result Subset :=
  match s with
  | Some d => Ok d
  | None => Raise (AttributeError name)
  end.

Definition train_dataloader (self : MassSpecDataModule) : result LoaderT :=
  d ← subset_attr "train_dataset" (train_dataset self);
  DataLoader d (batch_size self) true (num_workers self).

Definition val_dataloader (self : MassSpecDataModule) : result LoaderT :=
  d ← subset_attr "val_dataset" (val_dataset self);
  DataLoader d (batch_size self) false (num_workers self).

Definition test_dataloader (self : MassSpecDataModule) : result LoaderT :=
  d ← subset_attr "test_dataset" (test_dataset self);
  DataLoader d (batch_size self) false (num_workers self).

(** [len(subset)] and [subset[j]] of [torch.utils.data.Subset] *)
Definition Subset_len (s : Subset) : nat := length (indices s).

Definition Subset_getitem (s : Subset) (j : nat)
    : result (gmap string item_value) :=
  match indices s !! j with
  | Some i => __getitem__ (subset_dataset s) i
  | None => Raise IndexError
  end.

End loaders.

End Loaders.

(** ** Notions for the further properties *)

Module MoreSpec.

(** The sizes on which [a * b] is defined. *)
Definition broadcastable (a b : list Qc) : Prop :=
  length a = length b ∨ length a = 1%nat ∨ length b = 1%nat.

(** The call to [self.log] that a step makes. *)
Definition step_log (metric_pref : string) (mean_loss : option Qc)
    (batch_size : Z) : SimulationBase.LogCall :=
  {| SimulationBase.log_name := metric_pref +:+ "loss_step";
     SimulationBase.log_value := mean_loss;
     SimulationBase.log_batch_size := Some batch_size;
     SimulationBase.log_sync_dist := true;
     SimulationBase.log_prog_bar := true;
     SimulationBase.log_on_step := Some true;
     SimulationBase.log_on_epoch := Some false |}.

(** Every selected entry of [metric_d] has accumulated something. *)
Definition accumulated (sub : string) (d : gmap string (list Qc * list Qc))
    : Prop :=
  ∀ k v, d !! k = Some v → contains sub k → v.1 ≠ [] ∧ v.2 ≠ [].

End MoreSpec.

(** ** Instances for the further properties *)

Module MoreExamples.

Import Datasets Examples.

Definition scores35 : list Qc := [Qc_of_Z 3; Qc_of_Z 5].
Definition weights13 : list Qc := [Qc_of_Z 1; Qc_of_Z 3].

(** A batch of two spectra and a model that predicts one peak for each. *)
Definition two_spectra : @SimulationBase.Batch utilities :=
  @SimulationBase.Build_Batch utilities
    [Qc_of_Z 100; Qc_of_Z 200] [Qc_of_Z 1; Qc_of_Z 1] [0; 1]%Z
    [Qc_of_Z 2; Qc_of_Z 6] ().

Definition one_peak_each (b : @SimulationBase.Batch utilities)
    : SimulationBase.ModelOut :=
  {| SimulationBase.pred_mzs := SimulationBase.spec_mzs b;
     SimulationBase.pred_logprobs := [Qc_of_Z 400; Qc_of_Z 600];
     SimulationBase.pred_batch_idxs := [0; 1]%Z |}.

(** A module that carries an attribute named [optimizer]. *)
Definition module_with_attribute : @SimulationBase.Self utilities :=
  @SimulationBase.Build_Self utilities
    (hparams_with "rmsprop" false)
    ["model.weight"]
    {[ "optimizer" := "Adam (lr: 0.001)" ]}.

(** A dataset with an id that [clean_split] does not have. *)
Definition stray_dataset : @MassSpecDataset files :=
  @Build_MassSpecDataset files "full.mgf" full_spectra [7; 5]%Z
    count_peaks keep_smiles.

Definition stray_prepared : @MassSpecDataModule files :=
  @Build_MassSpecDataModule files stray_dataset "clean.csv" 32 0
    (Some clean_series) None None None.

(** The module over [clean_split] after [setup]. *)
Definition clean_ready : @MassSpecDataModule files :=
  @Build_MassSpecDataModule files full_dataset "clean.csv" 32 0
    (Some clean_series)
    (Some (@Build_Subset files full_dataset [0]%nat))
    (Some (@Build_Subset files full_dataset [1]%nat))
    (Some (@Build_Subset files full_dataset [])).

(** A loader constructor that refuses a batch size that is not positive,
    and keeps its other arguments. *)
Definition checked_loader (d : @Subset files) (batch_size : Z)
    (shuffle : bool) (num_workers : Z)
    : result (@Subset files * Z * bool * Z) :=
  if decide (batch_size ≤ 0)%Z
  then Raise (ValueError "batch_size should be a positive integer value")
  else Ok (d, batch_size, shuffle, num_workers).

End MoreExamples.

(** * Theorems *)

Section reduce_facts.

Import SimulationBase Spec.

Lemma foldl_Qcplus_acc (a : Qc) (l : list Qc) :
  foldl Qcplus a l = a + foldl Qcplus 0 l.
Proof.
  revert a. induction l as [|x l IH]; intros a; simpl.
  - by rewrite Qcplus_0_r.
  - rewrite (IH (a + x)), (IH (0 + x)), Qcplus_0_l. ring.
Qed.

Lemma sum_cons (x : Qc) (l : list Qc) :
  Torch.sum (x :: l) = x + Torch.sum l.
Proof.
  unfold Torch.sum. simpl. by rewrite foldl_Qcplus_acc, Qcplus_0_l.
Qed.

Lemma sum_index_sum (l : list Qc) :
  Torch.sum l = index_sum (length l) (at_ l).
Proof.
  induction l as [|x l IH]; [done|].
  rewrite sum_cons, IH. done.
Qed.

End reduce_facts.

Section batch_metric_reduce.

Import SimulationBase Spec.

Lemma mul_same_length (s w : list Qc) :
  length s = length w → Torch.mul s w = Ok (zip_with Qcmult s w).
Proof.
  intros Hlen. unfold Torch.mul.
  destruct s as [|x [|x' s]], w as [|y [|y' w]]; simplify_eq/=; try done.
  - by rewrite decide_True by (simpl; lia).
Qed.

Lemma sum_zip_with_mul (s w : list Qc) :
  length s = length w →
  Torch.sum (zip_with Qcmult s w)
  = index_sum (length s) (λ i, at_ s i * at_ w i).
Proof.
  revert w. induction s as [|x s IH]; intros [|y w] Hlen; simplify_eq/=;
    [done|].
  rewrite sum_cons, IH by done. done.
Qed.

Lemma sum_ones_like (w : list Qc) :
  Torch.sum (Torch.ones_like w) = Qc_of_Z (Z.of_nat (length w)).
Proof.
  induction w as [|y w IH]; [by apply Qc_is_canon|].
  unfold Torch.ones_like in *. simpl map. rewrite sum_cons, IH.
  apply Qc_is_canon. simpl length. rewrite Nat2Z.inj_succ.
  unfold Qc_of_Z. simpl. rewrite Qred_correct.
  unfold Qeq, Qplus. simpl. lia.
Qed.

Lemma zip_with_mul_ones (s w : list Qc) :
  length s = length w → zip_with Qcmult s (Torch.ones_like w) = s.
Proof.
  revert w. induction s as [|x s IH]; intros [|y w] Hlen; simplify_eq/=;
    [done|].
  unfold Torch.ones_like in *. by rewrite Qcmult_1_r, IH.
Qed.



End batch_metric_reduce.

Section configure_optimizers_facts.

Import SimulationBase.
Context `{Ext : Externals}.
Variable build_lr_scheduler : Optimizer → Qc → Z → Z → Scheduler.

Abbreviation configure := (configure_optimizers build_lr_scheduler).

(** The dictionary returned once the optimizer class is chosen. *)
Lemma configure_known (self : Self) (name : string) (cls : optimizer_cls) :
  (name, cls) ∈ [("adam", Adam); ("adamw", AdamW); ("sgd", SGD)] →
  optimizer (hparams self) = name →
  let o := {| opt_cls := cls;
              opt_params := parameters self;
              opt_lr := lr (hparams self);
              opt_weight_decay := weight_decay (hparams self) |} in
  configure self
  = ([o],
     Ok (if lr_schedule (hparams self)
         then <[ "lr_scheduler" :=
                   CfgLrScheduler
                     (build_lr_scheduler o (lr_decay_rate (hparams self))
                        (lr_warmup_steps (hparams self))
                        (lr_decay_steps (hparams self))) 1 "step" ]>
                {[ "optimizer" := CfgOptimizer o ]}
         else {[ "optimizer" := CfgOptimizer o ]})).
Proof.
  intros Hin Hname o. unfold configure_optimizers.
  rewrite !elem_of_cons, elem_of_nil in Hin.
  destruct Hin as [[= -> ->]|[[= -> ->]|[[= -> ->]|[]]]];
    rewrite Hname; reflexivity.
Qed.


Lemma configure_unknown (self : Self) :
  optimizer (hparams self) ∉ ["adam"; "adamw"; "sgd"] →
  configure self
  = ([], match attrs self !! "optimizer" with
         | Some v => Raise (ValueError ("Unknown optimizer " +:+ v))
         | None => Raise (AttributeError "optimizer")
         end).
Proof.
  intros Hnot. unfold configure_optimizers, getattr.
  rewrite !not_elem_of_cons in Hnot. destruct Hnot as (H1 & H2 & H3 & _).
  apply String.eqb_neq in H1, H2, H3. rewrite H1, H2, H3.
  by destruct (attrs self !! "optimizer").
Qed.

(** C9. For any other value of [hparams.optimizer] the call raises and
    no optimizer is constructed; on a module without an attribute named
    [optimizer], what is raised is the AttributeError of reading
    [self.optimizer] for the message, not the ValueError. *)
Theorem configure_optimizers_unknown (self : Self) :
  optimizer (hparams self) ∉ ["adam"; "adamw"; "sgd"] →
  (∃ e, configure self = ([], Raise e))
  ∧ (attrs self !! "optimizer" = None →
     configure self = ([], Raise (AttributeError "optimizer"))).
Proof.
  intros Hnot. rewrite configure_unknown by done. split.
  - destruct (attrs self !! "optimizer"); eauto.
  - by intros ->.
Qed.

End configure_optimizers_facts.

Section loss_facts.

Import SimulationBase.
Context `{Ext : Externals}.


End loss_facts.

Section step_facts.

Import SimulationBase Spec.
Context `{Ext : Externals}.
Variable model_forward : Batch → ModelOut.

(** C2. For every batch, [step] either raises (the reduction of the
    distances raises, or the model predicts no peak at all) or returns a
    dictionary whose "loss" entry is the first component of the reduction
    of the sparse cosine distances between the predicted spectrum and the
    preprocessed true spectrum; the reduction is the train one exactly
    when [metric_pref] is "train_". *)
Theorem step_loss (self : Self) (batch : Batch) (metric_pref : string)
    (st : ModuleState) :
  match step_reduce_fn self metric_pref
          (sample_distances model_forward self batch) (weight batch),
        pred_batch_idxs (model_forward batch) with
  | Ok (w_mean, _, _), _ :: _ =>
      ∃ out_d st',
        step model_forward self batch metric_pref st = (Ok out_d, st')
        ∧ out_d !! "loss" = Some (OutScalar w_mean)
  | _, _ =>
      ∃ e st', step model_forward self batch metric_pref st = (Raise e, st')
  end.
Proof.
  unfold step, step_reduce_fn, sample_distances, preprocessed_logprobs.
  unfold _preproc_spec, loss_fn, _loss_fn, ints_transform_func,
    ints_normalize_func, Torch.mul_scalar. simpl.
  unfold bind at 1, lift at 1.
  assert ((if (metric_pref =? "train_")%string
           then train_reduce_fn self else eval_reduce_fn self)
          = (if decide (metric_pref = "train_")
             then train_reduce_fn self else eval_reduce_fn self)) as ->.
  { destruct (String.eqb_spec metric_pref "train_");
      [by rewrite decide_True|by rewrite decide_False]. }
  destruct ((if decide (metric_pref = "train_") then _ else _) _ _)
    as [[[w_mean w_score_total] w_total]|e]; [|by destruct (pred_batch_idxs _); eauto].
  unfold bind at 1, lift at 1.
  destruct (pred_batch_idxs (model_forward batch)) as [|b bs]; simpl; [eauto|].
  eexists _, _. split; [reflexivity|]. simpl.
  by rewrite lookup_insert_eq.
Qed.

End step_facts.

Section epoch_end_facts.

Import SimulationBase Spec.
Context `{Ext : Externals}.

Lemma stack_Ok (l r : list Qc) : Torch.stack l = Ok r → l ≠ [] ∧ r = l.
Proof. destruct l; simpl; [done|]. by intros [= <-]. Qed.

Lemma log_and_delete_Ok kv (s s' : ModuleState) :
  metric_d s !! kv.1 = Some kv.2 →
  log_and_delete kv s = (Ok (), s') →
  s' = {| metric_d := delete kv.1 (metric_d s);
          logged := logged s ++ [epoch_log kv] |}.
Proof.
  destruct kv as [k [num den]]. simpl. intros Hk.
  unfold log_and_delete, bind, lift, log, modify, del_metric. simpl.
  destruct (Torch.stack num) as [num'|] eqn:Hnum; simpl; [|done].
  destruct (Torch.stack den) as [den'|] eqn:Hden; simpl; [|done].
  apply stack_Ok in Hnum as [_ ->]. apply stack_Ok in Hden as [_ ->].
  rewrite Hk. intros [= <-]. f_equal. f_equal.
  unfold epoch_log, epoch_mean, total. simpl.
  by rewrite <- !sum_index_sum.
Qed.

Lemma epoch_loop_Ok (l : list (string * (list Qc * list Qc)))
    (s s' : ModuleState) :
  NoDup l.*1 →
  (∀ kv, kv ∈ l → metric_d s !! kv.1 = Some kv.2) →
  for_each l log_and_delete s = (Ok (), s') →
  logged s' = logged s ++ (epoch_log <$> l)
  ∧ ∀ k, metric_d s' !! k
         = if decide (k ∈ l.*1) then None else metric_d s !! k.
Proof.
  revert s. induction l as [|kv l IH]; intros s Hnd Hin; cbn [for_each].
  - intros [= <-]. split; [by rewrite app_nil_r|].
    intros k. destruct (decide _) as [Hk|]; [|done]. by apply elem_of_nil in Hk.
  - rewrite fmap_cons in Hnd. apply NoDup_cons in Hnd as [Hk Hnd].
    unfold bind at 1.
    destruct (log_and_delete kv s) as [[[]|e] s1] eqn:Hbody; [|done].
    apply log_and_delete_Ok in Hbody; [|apply Hin; by left].
    intros Hrest. apply IH in Hrest as [Hlog Hmap]; [|done|].
    + subst s1. cbn [metric_d logged] in *.
      split; [by rewrite Hlog, fmap_cons, <- app_assoc|].
      intros k. rewrite Hmap.
      destruct (decide (k ∈ l.*1)) as [Hl|Hl],
        (decide (k ∈ (kv :: l).*1)) as [Hkl|Hkl]; try done.
      * exfalso. apply Hkl. rewrite fmap_cons. by right.
      * rewrite fmap_cons, elem_of_cons in Hkl.
        destruct Hkl as [->|?]; [|done]. by rewrite lookup_delete_eq.
      * rewrite lookup_delete_ne; [done|].
        intros <-. apply Hkl. rewrite fmap_cons. by left.
    + intros kv' Hkv'. subst s1. cbn [metric_d].
      rewrite lookup_delete_ne; [apply Hin; by right|].
      intros Heq. apply Hk. rewrite Heq. by apply list_elem_of_fmap_2.
Qed.

Lemma run_hook_unfold (h : epoch_hook) :
  run_hook h = epoch_end_for (hook_substring h).
Proof. by destruct h. Qed.

Lemma selected_entries (sub : string) (m : gmap string (list Qc * list Qc)) :
  let l := filter (λ kv, contains sub kv.1) (map_to_list m) in
  NoDup l.*1
  ∧ (∀ kv, kv ∈ l ↔ m !! kv.1 = Some kv.2 ∧ contains sub kv.1)
  ∧ (∀ k, k ∈ l.*1 ↔ is_Some (m !! k) ∧ contains sub k).
Proof.
  intros l.
  assert (∀ kv, kv ∈ l ↔ m !! kv.1 = Some kv.2 ∧ contains sub kv.1) as Hl.
  { intros [k v]. unfold l. rewrite list_elem_of_filter, elem_of_map_to_list.
    simpl. tauto. }
  split; [|split; [done|]].
  - unfold l. apply NoDup_fmap_fst.
    + intros k v1 v2 [_ H1]%list_elem_of_filter [_ H2]%list_elem_of_filter.
      apply elem_of_map_to_list in H1, H2. congruence.
    + apply NoDup_filter, NoDup_map_to_list.
  - intros k. rewrite list_elem_of_fmap. split.
    + intros [[k' v] [-> [Hm Hc]%Hl]]. eauto.
    + intros [[v Hv] Hc]. exists (k, v). split; [done|]. by apply Hl.
Qed.

(** When every selected entry has accumulated something, the hook
    returns. *)
Lemma epoch_loop_returns (l : list (string * (list Qc * list Qc)))
    (s : ModuleState) :
  NoDup l.*1 →
  (∀ kv, kv ∈ l → metric_d s !! kv.1 = Some kv.2) →
  (∀ kv, kv ∈ l → kv.2.1 ≠ [] ∧ kv.2.2 ≠ []) →
  ∃ s', for_each l log_and_delete s = (Ok (), s').
Proof.
  revert s. induction l as [|kv l IH]; intros s Hnd Hin Hne; cbn [for_each].
  - by eexists.
  - rewrite fmap_cons in Hnd. apply NoDup_cons in Hnd as [Hk Hnd].
    unfold bind at 1.
    assert (∃ s1, log_and_delete kv s = (Ok (), s1)) as [s1 Hs1].
    { destruct (Hne kv) as [H1 H2]; [by left|].
      destruct kv as [k [[|x num] [|y den]]]; try done.
      assert (metric_d s !! k = Some (x :: num, y :: den)) as Hlook.
      { apply (Hin (k, (x :: num, y :: den))). by left. }
      unfold log_and_delete, bind, lift, log, modify, del_metric.
      cbn -[Torch.sum Torch.div]. rewrite Hlook. by eexists. }
    rewrite Hs1. pose proof Hs1 as Hs1'.
    apply log_and_delete_Ok in Hs1'; [|apply Hin; by left].
    apply IH; [done| |].
    + intros kv' Hkv'. subst s1. cbn [metric_d].
      rewrite lookup_delete_ne; [apply Hin; by right|].
      intros Heq. apply Hk. rewrite Heq. by apply list_elem_of_fmap_2.
    + intros kv' Hkv'. apply Hne. by right.
Qed.

Lemma epoch_end_returns (h : epoch_hook) (st : ModuleState) :
  (∀ k v, metric_d st !! k = Some v → contains (hook_substring h) k →
          v.1 ≠ [] ∧ v.2 ≠ []) →
  ∃ st', run_hook h st = (Ok (), st').
Proof.
  intros Hne. rewrite run_hook_unfold. unfold epoch_end_for, bind, get.
  destruct (selected_entries (hook_substring h) (metric_d st))
    as (Hnd & Hl & _).
  apply epoch_loop_returns; [done|..].
  - intros kv Hkv. by apply Hl in Hkv as [? _].
  - intros [k v] [Hk Hc]%Hl. by apply (Hne k v).
Qed.


End epoch_end_facts.

Section dataset_facts.

Import Datasets DataSpec.
Context `{Ext : Externals}.

Lemma dataset_init_Ok (pth : Path) (sp : SpecTransform) (mp : MolTransform)
    (self : MassSpecDataset) :
  __init__ pth sp mp = Ok self →
  spectra self = load_from_mgf pth
  ∧ spec_preproc self = sp ∧ mol_preproc self = mp.
Proof.
  unfold __init__.
  destruct (mapM _ _); simpl; [|done]. by intros [= <-].
Qed.

Lemma getitem_present (self : MassSpecDataset) (i : nat) (s : Spectrum)
    (precursor_mz adduct : meta_value) :
  spectra self !! i = Some s →
  metadata s !! "precursor_mz" = Some precursor_mz →
  metadata s !! "adduct" = Some adduct →
  __getitem__ self i = Ok (expected_item self s precursor_mz adduct).
Proof.
  intros Hs Hp Ha. unfold __getitem__, spectra_getitem, metadata_getitem.
  rewrite Hs. simpl. rewrite Hp, Ha. reflexivity.
Qed.

(** C7, as amended. For every index [i] below the length of the dataset
    whose spectrum carries the metadata "precursor_mz" and "adduct",
    [__getitem__(i)] returns the dictionary that pairs "spec", the
    spectrum transform of the [i]-th parsed spectrum, with "mol", the
    molecule transform of its smiles, together with those two metadata
    values; and [__len__] is the number of spectra parsed from the file. *)
Theorem getitem_pairs_spectrum_and_molecule (pth : Path)
    (sp : SpecTransform) (mp : MolTransform) (self : MassSpecDataset)
    (i : nat) (s : Spectrum) (precursor_mz adduct : meta_value) :
  __init__ pth sp mp = Ok self →
  load_from_mgf pth !! i = Some s →
  metadata s !! "precursor_mz" = Some precursor_mz →
  metadata s !! "adduct" = Some adduct →
  (i < __len__ self)%nat
  ∧ __getitem__ self i
    = Ok {[ "spec" := ItemSpec (sp s);
            "mol" := ItemMol (mp (metadata s !! "smiles"));
            "precursor_mz" := ItemMeta precursor_mz;
            "adduct" := ItemMeta adduct ]}
  ∧ __len__ self = length (load_from_mgf pth).
Proof.
  intros (Hspectra & Hsp & Hmp)%dataset_init_Ok Hs Hp Ha.
  unfold __len__. rewrite Hspectra. split; [by eapply lookup_lt_Some|].
  split; [|done].
  rewrite (getitem_present self i s precursor_mz adduct);
    [|by rewrite Hspectra|done|done].
  unfold expected_item. by rewrite Hsp, Hmp.
Qed.

(** C8. [RetrievalDataset] is a function of one argument; whatever the
    argument, the call returns [None] and no dataset. *)
Theorem RetrievalDataset_returns_None (X : Type) (x : X) :
  RetrievalDataset x = PyNone
  ∧ ∀ d : MassSpecDataset, RetrievalDataset x ≠ PyDataset d.
Proof. split; [reflexivity|discriminate]. Qed.

End dataset_facts.

Section prepare_data_facts.

Import Datasets DataSpec.
Context `{Ext : Externals}.

Lemma column_position_Ok (df : DataFrame) (name : string) :
  name ∈ columns df →
  ∃ j, column_position df name = Ok j
       ∧ column_values df name = (λ r, row_cell r j) <$> rows df.
Proof.
  intros Hin. unfold column_position, column_values.
  destruct (list_find_elem_of (λ c, c = name) (columns df) name Hin eq_refl)
    as [[j c] ->].
  by exists j.
Qed.

Lemma set_index_getitem_Ok (df : DataFrame) :
  (list_to_set (columns df) : gset string) = {[ "id"; "fold" ]} →
  ∃ split, set_index_getitem df "id" "fold" = Ok split
           ∧ Series_index split = column_values df "id"
           ∧ Series_values split = column_values df "fold".
Proof.
  intros Hcols.
  destruct (column_position_Ok df "id") as (ji & Hji & ->).
  { apply (elem_of_list_to_set (C:=gset string)). rewrite Hcols. set_solver. }
  destruct (column_position_Ok df "fold") as (jf & Hjf & ->).
  { apply (elem_of_list_to_set (C:=gset string)). rewrite Hcols. set_solver. }
  unfold set_index_getitem. rewrite Hji, Hjf. simpl.
  eexists. split; [done|].
  unfold Series_index, Series_values.
  by rewrite <- !list_fmap_compose.
Qed.

(** What [prepare_data] does, by the two tests it makes. *)
Lemma prepare_data_cases (self : MassSpecDataModule) :
  let df := read_csv (split_pth self) in
  if decide ((list_to_set (columns df) : gset string) ≠ {[ "id"; "fold" ]})
  then prepare_data self = Raise (ValueError columns_message)
  else if decide ((list_to_set (column_values df "fold") : gset cell)
                  ≠ {[ CStr "train"; CStr "val"; CStr "test" ]})
  then prepare_data self = Raise (ValueError folds_message)
  else ∃ prepared split,
    prepare_data self = Ok prepared
    ∧ Datasets.split prepared = Some split
    ∧ dataset prepared = dataset self
    ∧ Series_index split = column_values df "id"
    ∧ Series_values split = column_values df "fold".
Proof.
  intros df. unfold prepare_data. fold df.
  destruct (decide (_ ≠ _)) as [|Hcols]; [done|].
  apply dec_stable in Hcols.
  destruct (set_index_getitem_Ok df Hcols) as (split & -> & Hidx & Hval).
  simpl. rewrite Hval.
  destruct (decide (_ ≠ _)) as [|Hfolds]; [done|].
  eexists _, split. by repeat split.
Qed.

(** C10. [prepare_data] raises ValueError exactly when the set of the
    columns of the split file is not {"id", "fold"} or the set of the
    values of its fold column is not {"train", "val", "test"} (otherwise
    it returns); so a file whose fold values are only some of the three is
    refused, though each value is the name of a fold. *)
Theorem prepare_data_raises_iff (self : MassSpecDataModule) :
  let df := read_csv (split_pth self) in
  let cols : gset string := list_to_set (columns df) in
  let folds : gset cell := list_to_set (column_values df "fold") in
  let all_folds : gset cell := {[ CStr "train"; CStr "val"; CStr "test" ]} in
  ((∃ msg, prepare_data self = Raise (ValueError msg))
   ↔ cols ≠ {[ "id"; "fold" ]} ∨ folds ≠ all_folds)
  ∧ (cols = {[ "id"; "fold" ]} ∧ folds = all_folds →
     ∃ prepared, prepare_data self = Ok prepared)
  ∧ (cols = {[ "id"; "fold" ]} → folds ⊂ all_folds →
     ∃ msg, prepare_data self = Raise (ValueError msg)).
Proof.
  intros df cols folds all_folds.
  pose proof (prepare_data_cases self) as Hcases. cbv zeta in Hcases.
  fold df in Hcases. fold cols in Hcases. fold folds in Hcases.
  fold all_folds in Hcases.
  destruct (decide (cols ≠ _)) as [Hc|Hc].
  { split; [|split].
    - split; [by left|by eexists].
    - by intros [? _].
    - done. }
  destruct (decide (folds ≠ _)) as [Hf|Hf].
  { split; [|split].
    - split; [by right|by eexists].
    - by intros [_ ?].
    - by eexists. }
  destruct Hcases as (prepared & split & Hprep & _).
  apply dec_stable in Hc. apply dec_stable in Hf.
  split; [|split].
  - split; [|by intros [?|?]]. intros [msg Hmsg]. congruence.
  - by eexists.
  - intros _ Hsub. exfalso. rewrite Hf in Hsub. by apply (irreflexivity (⊂)) in Hsub.
Qed.

End prepare_data_facts.

Section where_facts.

Import Datasets.

Lemma elem_of_where_from (i k : nat) (mask : list bool) :
  i ∈ where_from k mask ↔ ∃ j, i = (k + j)%nat ∧ mask !! j = Some true.
Proof.
  revert k. induction mask as [|b mask IH]; intros k; simpl.
  - rewrite elem_of_nil. split; [done|by intros (? & _ & ?)].
  - rewrite elem_of_app, IH. split.
    + intros [Hb|(j & -> & Hj)].
      * destruct b; [|by apply elem_of_nil in Hb].
        apply list_elem_of_singleton in Hb as ->. exists 0%nat. split; [lia|done].
      * exists (S j). split; [lia|done].
    + intros ([|j] & -> & Hj); simplify_eq/=.
      * left. rewrite Nat.add_0_r. by apply list_elem_of_singleton.
      * right. exists j. split; [lia|done].
Qed.

Lemma where_from_sorted (k : nat) (mask : list bool) :
  StronglySorted lt (where_from k mask).
Proof.
  revert k. induction mask as [|b mask IH]; intros k; simpl.
  - constructor.
  - destruct b; simpl; [|done].
    constructor; [done|]. apply Forall_forall.
    intros i (j & -> & _)%elem_of_where_from. lia.
Qed.

Lemma eq_mask_lookup (v : string) (a : list cell) (j : nat) :
  eq_mask v a !! j = Some true ↔ a !! j = Some (CStr v).
Proof.
  unfold eq_mask. rewrite list_lookup_fmap.
  destruct (a !! j) as [c|]; simpl; [|done].
  split.
  - intros [= Hc]. by apply bool_decide_eq_true in Hc as ->.
  - intros [= ->]. by rewrite bool_decide_eq_true_2.
Qed.

Lemma elem_of_np_where_eq (a : list cell) (v : string) (i : nat) :
  i ∈ np_where_eq (Arr1 a) v ↔ a !! i = Some (CStr v).
Proof.
  simpl. rewrite elem_of_where_from. split.
  - intros (j & -> & Hj). by apply eq_mask_lookup.
  - intros Hi. exists i. split; [done|]. by apply eq_mask_lookup.
Qed.

Lemma mapM_result_Forall2 {A B} (f : A → result B) (R : A → B → Prop)
    (l : list A) :
  (∀ x, x ∈ l → ∃ y, f x = Ok y ∧ R x y) →
  ∃ k, mapM f l = Ok k ∧ Forall2 R l k.
Proof.
  induction l as [|x l IH]; intros Hl; simpl.
  - by exists [].
  - destruct (Hl x) as (y & -> & Hy); [by left|].
    destruct IH as (k & -> & Hk); [intros x' ?; apply Hl; by right|].
    exists (y :: k). split; [done|by constructor].
Qed.

Lemma Series_getitem_once (split : Series) (id : Z) :
  length (filter (λ lv, lv.1 = CInt id) split) = 1%nat →
  ∃ c, Series_getitem split id = Ok (Scalar c) ∧ (CInt id, c) ∈ split.
Proof.
  intros Hlen. unfold Series_getitem.
  destruct (filter _ split) as [|[l c] [|]] eqn:Hf; simplify_eq/=.
  exists c. split; [done|].
  assert ((l, c) ∈ filter (λ lv, lv.1 = CInt id) split) as Hin
    by (rewrite Hf; by left).
  apply list_elem_of_filter in Hin as [Hl Hin]. simpl in Hl. by subst l.
Qed.

Lemma np_array_scalars (xs : list lookup) (cs : list cell) :
  Forall2 (λ x c, x = Scalar c) xs cs → np_array xs = Ok (Arr1 cs).
Proof.
  intros Hxs. unfold np_array.
  rewrite (mapM_Some_2 as_scalar xs cs); [done|].
  eapply Forall2_impl; [done|]. by intros x c ->.
Qed.

End where_facts.

Section setup_facts.

Import Datasets DataSpec.
Context `{Ext : Externals}.

Lemma filter_label_length (split : Series) (id : Z) :
  length (filter (λ lv, lv.1 = CInt id) split) = occurrences split id.
Proof.
  unfold occurrences, Series_index.
  induction split as [|[l c] split IH]; [done|].
  rewrite fmap_cons. cbn [fst].
  destruct (decide (l = CInt id)).
  - rewrite !filter_cons_True by done. cbn [length]. by rewrite IH.
  - by rewrite !filter_cons_False by done.
Qed.

Lemma scalars_of_lookups (split : Series) (idx : list Z) (k : list lookup) :
  Forall2 (λ id y, ∃ c, y = Scalar c ∧ (CInt id, c) ∈ split) idx k →
  ∃ cs, Forall2 (λ y c, y = Scalar c) k cs
        ∧ Forall2 (λ id c, (CInt id, c) ∈ split) idx cs.
Proof.
  induction 1 as [|id y idx k (c & -> & Hc) _ (cs & Hk & Hcs)].
  - by exists [].
  - exists (c :: cs). split; by constructor.
Qed.

Lemma members_setup (self : MassSpecDataModule) (split : Series)
    (mask : ndarray) (fold : string) :
  fold ∈ fold_names →
  members
    {| dataset := dataset self;
       split_pth := split_pth self;
       batch_size := batch_size self;
       num_workers := num_workers self;
       Datasets.split := Some split;
       train_dataset :=
         Some {| subset_dataset := dataset self;
                 indices := np_where_eq mask "train" |};
       val_dataset :=
         Some {| subset_dataset := dataset self;
                 indices := np_where_eq mask "val" |};
       test_dataset :=
         Some {| subset_dataset := dataset self;
                 indices := np_where_eq mask "test" |} |} fold
  = np_where_eq mask fold.
Proof.
  unfold fold_names. rewrite !elem_of_cons, elem_of_nil.
  intros [->|[->|[->|[]]]]; reflexivity.
Qed.

Lemma setup_once (prepared : MassSpecDataModule) (split : Series) :
  Datasets.split prepared = Some split →
  (∀ id, id ∈ spectra_idx (dataset prepared) → occurrences split id = 1%nat) →
  ∃ ready cs,
    setup prepared = Ok ready
    ∧ dataset ready = dataset prepared
    ∧ Forall2 (λ id c, (CInt id, c) ∈ split)
        (spectra_idx (dataset prepared)) cs
    ∧ ∀ fold, fold ∈ fold_names →
              members ready fold = np_where_eq (Arr1 cs) fold.
Proof.
  intros Hsplit Honce. unfold setup. rewrite Hsplit. simpl.
  destruct (mapM_result_Forall2 (Series_getitem split)
              (λ id y, ∃ c, y = Scalar c ∧ (CInt id, c) ∈ split)
              (spectra_idx (dataset prepared))) as (k & -> & Hk).
  { intros id Hid. apply Honce in Hid.
    rewrite <- (filter_label_length split id) in Hid.
    destruct (Series_getitem_once split id Hid) as (c & Hc & Hin). eauto. }
  destruct (scalars_of_lookups _ _ _ Hk) as (cs & Hkcs & Hcs).
  simpl. rewrite (np_array_scalars k cs Hkcs). simpl.
  eexists _, cs. split; [done|]. split; [done|]. split; [done|].
  intros fold Hfold. exact (members_setup prepared split (Arr1 cs) fold Hfold).
Qed.

Lemma prepare_data_Ok (self prepared : MassSpecDataModule) (split : Series) :
  prepare_data self = Ok prepared →
  Datasets.split prepared = Some split →
  dataset prepared = dataset self
  ∧ (list_to_set (Series_values split) : gset cell)
    = {[ CStr "train"; CStr "val"; CStr "test" ]}.
Proof.
  intros Hprep Hsplit. pose proof (prepare_data_cases self) as Hcases.
  cbv zeta in Hcases.
  case_decide; [congruence|].
  case_decide as Hfolds; [congruence|].
  destruct Hcases as (prepared' & split' & Hprep' & Hsplit' & Hds & _ & Hval).
  rewrite Hprep in Hprep'. injection Hprep' as <-.
  rewrite Hsplit in Hsplit'. injection Hsplit' as <-.
  split; [done|]. by rewrite Hval.
Qed.

Lemma fold_of_value (split : Series) (l c : cell) :
  (list_to_set (Series_values split) : gset cell)
  = {[ CStr "train"; CStr "val"; CStr "test" ]} →
  (l, c) ∈ split →
  ∃ fold, c = CStr fold ∧ fold ∈ fold_names.
Proof.
  intros Hset Hin.
  assert (c ∈ (list_to_set (Series_values split) : gset cell)) as Hc.
  { apply elem_of_list_to_set. unfold Series_values.
    apply list_elem_of_fmap. by exists (l, c). }
  rewrite Hset in Hc. unfold fold_names.
  apply elem_of_union in Hc as [[Hc|Hc]%elem_of_union|Hc];
    apply elem_of_singleton in Hc as ->; eexists; (split; [done|]);
    rewrite !elem_of_cons; auto.
Qed.

(** C4, as amended. After [prepare_data] has succeeded, and provided every
    id of the dataset's [spectra_idx] occurs exactly once in the id column
    of the split file, [setup] returns and the train, validation and test
    subsets partition the indices of the dataset: every index is in
    exactly one of them, the one of the fold that the split gives to the
    id of its spectrum, and the indices of each subset are increasing. *)
Theorem setup_partitions (self prepared : MassSpecDataModule)
    (split : Series) :
  prepare_data self = Ok prepared →
  Datasets.split prepared = Some split →
  (∀ id, id ∈ spectra_idx (dataset self) → occurrences split id = 1%nat) →
  ∃ ready, setup prepared = Ok ready ∧ is_partition ready split.
Proof.
  intros Hprep Hsplit Honce.
  destruct (prepare_data_Ok self prepared split Hprep Hsplit) as [Hds Hset].
  rewrite <- Hds in Honce.
  destruct (setup_once prepared split Hsplit Honce)
    as (ready & cs & Hsetup & Hready & Hcs & Hmem).
  exists ready. split; [done|]. unfold is_partition. rewrite Hready.
  split; [|split].
  - intros i id Hi.
    destruct (Forall2_lookup_l _ _ _ _ _ Hcs Hi) as (c & Hci & Hin).
    destruct (fold_of_value split _ c Hset Hin) as (fold & -> & Hfold).
    exists fold. split; [done|]. split; [done|]. split.
    + rewrite Hmem by done. by apply elem_of_np_where_eq.
    + intros fold' Hfold' Hi'. rewrite Hmem in Hi' by done.
      apply elem_of_np_where_eq in Hi'. congruence.
  - intros fold i Hfold Hi. rewrite Hmem in Hi by done.
    apply elem_of_np_where_eq, lookup_lt_Some in Hi.
    by rewrite (Forall2_length _ _ _ Hcs).
  - intros fold Hfold. rewrite Hmem by done. apply where_from_sorted.
Qed.

End setup_facts.

Section instances.

Import Datasets DataSpec Examples.

Example full_dataset_init : dataset_of "full.mgf" = Ok full_dataset.
Proof. reflexivity. Qed.

Example bare_dataset_init : dataset_of "bare.mgf" = Ok bare_dataset.
Proof. reflexivity. Qed.

Example clean_split_prepared :
  @prepare_data files (module_of "clean.csv") = Ok clean_prepared.
Proof. reflexivity. Qed.

Example no_test_split_refused :
  @prepare_data files (module_of "no_test.csv")
  = Raise (ValueError (@folds_message)).
Proof. reflexivity. Qed.

Example broadcast_one_weight :
  Torch.mul [Qc_of_Z 2; Qc_of_Z 3] [Qc_of_Z 5]
  = Ok [Qc_of_Z 2 * Qc_of_Z 5; Qc_of_Z 3 * Qc_of_Z 5].
Proof. reflexivity. Qed.

Example sizes_disagree :
  ∃ msg, Torch.mul [Qc_of_Z 2; Qc_of_Z 3] [1; 1; 1] = Raise (RuntimeError msg).
Proof. by eexists. Qed.

Lemma getitem_claim_fails :
  (0 < @__len__ files bare_dataset)%nat
  ∧ @__getitem__ files bare_dataset 0 = Raise (KeyError "adduct")
  ∧ ¬ @getitem_claim files bare_dataset.
Proof.
  assert (@__getitem__ files bare_dataset 0 = Raise (KeyError "adduct"))
    as Hraise by reflexivity.
  split; [vm_compute; lia|]. split; [done|].
  intros Hclaim. destruct (Hclaim 0%nat) as (s & item & _ & Hitem & _).
  { vm_compute. lia. }
  rewrite Hraise in Hitem. discriminate.
Qed.

Lemma getitem_pairs_spectrum_and_molecule_witness :
  (0 < @__len__ files full_dataset)%nat
  ∧ @__getitem__ files full_dataset 0
    = Ok {[ "spec" := @ItemSpec files 0%nat;
            "mol" := @ItemMol files (Some (MStr "CCO"));
            "precursor_mz" := @ItemMeta files (MInt 47);
            "adduct" := @ItemMeta files (MStr "[M+H]+") ]}
  ∧ @__len__ files full_dataset = 2%nat.
Proof.
  apply (@getitem_pairs_spectrum_and_molecule files "full.mgf"
           count_peaks keep_smiles full_dataset 0
           (spectrum_with [("id", MInt 7); ("smiles", MStr "CCO");
                           ("precursor_mz", MInt 47);
                           ("adduct", MStr "[M+H]+")])
           (MInt 47) (MStr "[M+H]+"));
    reflexivity.
Defined.

Lemma split_claim_fails :
  @prepare_data files (module_of "repeated.csv") = Ok repeated_prepared
  ∧ @setup files repeated_prepared = Ok repeated_ready
  ∧ ¬ @split_claim files (module_of "repeated.csv").
Proof.
  assert (@prepare_data files (module_of "repeated.csv")
          = Ok repeated_prepared) as Hprep by reflexivity.
  assert (@setup files repeated_prepared = Ok repeated_ready)
    as Hready by reflexivity.
  split; [done|]. split; [done|]. intros Hclaim.
  destruct (Hclaim repeated_prepared repeated_ready repeated_series
              Hprep eq_refl Hready) as [Hone _].
  { intros id Hid. change (id ∈ [7; 8]%Z) in Hid.
    rewrite !elem_of_cons, elem_of_nil in Hid.
    destruct Hid as [->|[->|[]]].
    - by left.
    - right. right. by left. }
  destruct (Hone 0%nat 7%Z eq_refl) as (fold & _ & _ & _ & Huniq).
  assert ("train" = fold) as <-.
  { apply Huniq; [by left|]. by left. }
  assert ("val" = "train") as Heq; [|done].
  apply Huniq; [right; by left|]. by left.
Qed.

Lemma setup_partitions_witness :
  ∃ ready, @setup files clean_prepared = Ok ready
           ∧ @is_partition files ready clean_series.
Proof.
  apply (@setup_partitions files (module_of "clean.csv")
           clean_prepared clean_series); [reflexivity|reflexivity|].
  intros id Hid. change (id ∈ [7; 8]%Z) in Hid.
  rewrite !elem_of_cons, elem_of_nil in Hid.
  destruct Hid as [->|[->|[]]]; reflexivity.
Defined.

Import SimulationBase Spec.


Lemma configure_optimizers_unknown_witness :
  @configure_optimizers utilities scheduler_of (module_with "rmsprop" false)
  = ([], Raise (AttributeError "optimizer")).
Proof.
  apply (@configure_optimizers_unknown utilities scheduler_of
           (module_with "rmsprop" false)); [|reflexivity].
  change ("rmsprop" ∉ ["adam"; "adamw"; "sgd"]).
  rewrite !not_elem_of_cons. repeat split; try done. apply not_elem_of_nil.
Defined.


End instances.


(** * Further properties of the code *)

Section reduce_more.

Import SimulationBase Spec MoreSpec.

Lemma sum_app (a b : list Qc) : Torch.sum (a ++ b) = Torch.sum a + Torch.sum b.
Proof.
  induction a as [|x a IH]; simpl.
  - unfold Torch.sum at 2. simpl. by rewrite Qcplus_0_l.
  - rewrite !sum_cons, IH. ring.
Qed.

Lemma sum_scaled_l (c : Qc) (l : list Qc) :
  Torch.sum ((λ x, c * x) <$> l) = c * Torch.sum l.
Proof.
  induction l as [|x l IH]; [unfold Torch.sum; simpl; ring|].
  rewrite fmap_cons, !sum_cons, IH. ring.
Qed.

Lemma sum_scaled_r (c : Qc) (l : list Qc) :
  Torch.sum ((λ x, x * c) <$> l) = Torch.sum l * c.
Proof.
  induction l as [|x l IH]; [unfold Torch.sum; simpl; ring|].
  rewrite fmap_cons, !sum_cons, IH. ring.
Qed.

Lemma length_ones_like (w : list Qc) : length (Torch.ones_like w) = length w.
Proof. unfold Torch.ones_like. apply length_map. Qed.

Lemma mul_cases (a b : list Qc) :
  (broadcastable a b ∧ ∃ p, Torch.mul a b = Ok p)
  ∨ (¬ broadcastable a b ∧ ∃ msg, Torch.mul a b = Raise (RuntimeError msg)).
Proof.
  unfold broadcastable, Torch.mul.
  destruct a as [|x [|x' a]], b as [|y [|y' b]]; simpl;
    try (left; split; [auto|by eexists]);
    try (right; split; [intros [?|[?|?]]; simplify_eq|by eexists]).
  all: destruct (decide _) as [Heq|Hne].
  all: try (left; split; [auto|by eexists]).
  all: right; split; [intros [?|[?|?]]; simplify_eq/=; lia|by eexists].
Qed.

(** X1. The reduction returns exactly when the scores and the weights have
    the same length or one of them has a single element; on any other pair
    of sizes it raises RuntimeError, with or without sample weights. *)
Theorem batch_metric_reduce_sizes (sample_weight : bool)
    (scores weights : list Qc) :
  (broadcastable scores weights
   ∧ ∃ r, get_batch_metric_reduce_fn sample_weight scores weights = Ok r)
  ∨ (¬ broadcastable scores weights
     ∧ ∃ msg, get_batch_metric_reduce_fn sample_weight scores weights
              = Raise (RuntimeError msg)).
Proof.
  unfold get_batch_metric_reduce_fn, _batch_metric_reduce.
  set (w := if negb sample_weight then _ else _).
  assert (broadcastable scores w ↔ broadcastable scores weights) as Hw.
  { unfold broadcastable, w. destruct sample_weight; simpl; [done|].
    by rewrite length_ones_like. }
  destruct (mul_cases scores w) as [[Hb [p ->]]|[Hb [msg ->]]]; simpl.
  - left. split; [by apply Hw|by eexists].
  - right. split; [by rewrite <- Hw|by eexists].
Qed.

Lemma div_spec (t W : Qc) :
  match Torch.div t W with
  | Some q => W ≠ 0 ∧ q * W = t
  | None => W = 0
  end.
Proof.
  unfold Torch.div. destruct (decide (W = 0)) as [|HW]; [done|].
  split; [done|]. by field.
Qed.

Lemma batch_metric_reduce_consistent_aux (sample_weight : bool)
    (scores weights : list Qc) (w_mean : option Qc) (w_score_total w_total : Qc) :
  get_batch_metric_reduce_fn sample_weight scores weights
  = Ok (w_mean, w_score_total, w_total) →
  match w_mean with
  | Some m => w_total ≠ 0 ∧ m * w_total = w_score_total
  | None => w_total = 0
  end.
Proof.
  unfold get_batch_metric_reduce_fn, _batch_metric_reduce.
  destruct (Torch.mul _ _) as [p|]; simpl; [|done].
  intros [= <- <- <-]. apply div_spec.
Qed.


Lemma fmap_scaled_comm_l (c x : Qc) (w : list Qc) :
  Qcmult x <$> ((λ z, c * z) <$> w) = (λ z, c * z) <$> (Qcmult x <$> w).
Proof.
  rewrite <- !list_fmap_compose. apply list_fmap_ext. intros ? z _. simpl. ring.
Qed.

Lemma fmap_scaled_comm_r (c y : Qc) (s : list Qc) :
  (λ z, z * (c * y)) <$> s = (λ z, c * z) <$> ((λ z, z * y) <$> s).
Proof.
  rewrite <- !list_fmap_compose. apply list_fmap_ext. intros ? z _. simpl. ring.
Qed.

Lemma zip_with_scaled (c : Qc) (s w : list Qc) :
  zip_with Qcmult s ((λ z, c * z) <$> w)
  = (λ z, c * z) <$> zip_with Qcmult s w.
Proof.
  revert w. induction s as [|a s IH]; intros [|b w]; simpl; try done.
  rewrite IH. f_equal. ring.
Qed.

Lemma mul_scaled (c : Qc) (s w p : list Qc) :
  Torch.mul s w = Ok p →
  Torch.mul s ((λ x, c * x) <$> w) = Ok ((λ x, c * x) <$> p).
Proof.
  destruct s as [|x [|x' s]].
  - destruct w as [|y [|y' w]]; simpl; intros [= <-]; done.
  - simpl. intros [= <-]. f_equal. apply fmap_scaled_comm_l.
  - destruct w as [|y [|y' w]]; [done| |].
    + simpl. intros [= <-]. f_equal.
      apply (fmap_scaled_comm_r c y (x :: x' :: s)).
    + unfold Torch.mul. rewrite !fmap_cons.
      rewrite <- !fmap_cons, length_fmap.
      destruct (decide _); [|done]. intros [= <-]. f_equal.
      apply zip_with_scaled.
Qed.


Lemma sum_nonneg (w : list Qc) :
  Forall (λ x, 0 ≤ x) w → 0 ≤ Torch.sum w.
Proof.
  induction 1 as [|x w Hx _ IH]; [done|].
  rewrite sum_cons. rewrite <- (Qcplus_0_l 0). by apply Qcplus_le_compat.
Qed.

Lemma weighted_sum_le (hi : Qc) (s w : list Qc) :
  Forall (λ x, x ≤ hi) s → Forall (λ x, 0 ≤ x) w →
  length s = length w →
  Torch.sum (zip_with Qcmult s w) ≤ hi * Torch.sum w.
Proof.
  intros Hs. revert w. induction Hs as [|x s Hx _ IH]; intros w Hw Hlen.
  - destruct w; [|done]. unfold Torch.sum. simpl. by rewrite Qcmult_0_r.
  - destruct Hw as [|y w Hy Hw]; [done|]. simpl in Hlen.
    simpl. rewrite !sum_cons, Qcmult_plus_distr_r.
    apply Qcplus_le_compat; [|apply IH; [done|lia]].
    by apply Qcmult_le_compat_r.
Qed.

Lemma weighted_sum_ge (lo : Qc) (s w : list Qc) :
  Forall (λ x, lo ≤ x) s → Forall (λ x, 0 ≤ x) w →
  length s = length w →
  lo * Torch.sum w ≤ Torch.sum (zip_with Qcmult s w).
Proof.
  intros Hs. revert w. induction Hs as [|x s Hx _ IH]; intros w Hw Hlen.
  - destruct w; [|done]. unfold Torch.sum. simpl. by rewrite Qcmult_0_r.
  - destruct Hw as [|y w Hy Hw]; [done|]. simpl in Hlen.
    simpl. rewrite !sum_cons, Qcmult_plus_distr_r.
    apply Qcplus_le_compat; [|apply IH; [done|lia]].
    by apply Qcmult_le_compat_r.
Qed.



Lemma sum_concat (ls : list (list Qc)) :
  Torch.sum (concat ls) = Torch.sum (Torch.sum <$> ls).
Proof.
  induction ls as [|l ls IH]; [done|].
  simpl. by rewrite sum_app, sum_cons, IH.
Qed.

Lemma zip_with_concat (bs : list (list Qc * list Qc)) :
  Forall (λ b, length b.1 = length b.2) bs →
  zip_with Qcmult (concat bs.*1) (concat bs.*2)
  = concat ((λ b, zip_with Qcmult b.1 b.2) <$> bs)
  ∧ length (concat bs.*1) = length (concat bs.*2).
Proof.
  induction 1 as [|[s w] bs Hb _ [IH IHlen]]; [done|]. simpl in Hb.
  rewrite !fmap_cons. cbn [fst snd concat].
  rewrite zip_with_app by done. by rewrite IH, !length_app, IHlen, Hb.
Qed.


End reduce_more.

Section step_more.

Import SimulationBase Spec MoreSpec Hooks.
Context `{Ext : Externals}.
Variable model_forward : Batch → ModelOut.

Lemma reduce_raises_RuntimeError (sample_weight : bool)
    (scores weights : list Qc) (e : exn) :
  get_batch_metric_reduce_fn sample_weight scores weights = Raise e →
  ∃ msg, e = RuntimeError msg.
Proof.
  unfold get_batch_metric_reduce_fn, _batch_metric_reduce.
  set (w := if negb sample_weight then _ else _).
  destruct (mul_cases scores w) as [[_ [p ->]]|[_ [msg ->]]]; simpl; [done|].
  intros [= <-]. by eexists.
Qed.

(** What a step does, unfolded once for the lemmas below. *)
Lemma step_unfold (self : Self) (batch : Batch) (metric_pref : string)
    (st : ModuleState) :
  step model_forward self batch metric_pref st
  = match step_reduce_fn self metric_pref
            (sample_distances model_forward self batch) (weight batch) with
    | Raise e => (Raise e, st)
    | Ok (w_mean, _, _) =>
        match Torch.max (pred_batch_idxs (model_forward batch)) with
        | Raise e => (Raise e, st)
        | Ok m =>
            (Ok {[ "loss" := OutScalar w_mean;
                   "pred_mzs" := OutTensor (pred_mzs (model_forward batch));
                   "pred_logprobs" :=
                     OutTensor (pred_logprobs (model_forward batch));
                   "pred_batch_idxs" :=
                     OutIdxs (pred_batch_idxs (model_forward batch));
                   "true_mzs" := OutTensor (spec_mzs batch);
                   "true_logprobs" :=
                     OutTensor (preprocessed_logprobs self batch);
                   "true_batch_idxs" := OutIdxs (spec_batch_idxs batch) ]},
             {| metric_d := metric_d st;
                logged := logged st ++ [step_log metric_pref w_mean (m + 1)] |})
        end
    end.
Proof.
  unfold step, step_reduce_fn, sample_distances, preprocessed_logprobs.
  unfold _preproc_spec, loss_fn, _loss_fn, ints_transform_func,
    ints_normalize_func, Torch.mul_scalar. cbn beta iota zeta.
  unfold bind at 1, lift at 1.
  assert ((if (metric_pref =? "train_")%string
           then train_reduce_fn self else eval_reduce_fn self)
          = (if decide (metric_pref = "train_")
             then train_reduce_fn self else eval_reduce_fn self)) as ->.
  { destruct (String.eqb_spec metric_pref "train_");
      [by rewrite decide_True|by rewrite decide_False]. }
  destruct ((if decide (metric_pref = "train_") then _ else _) _ _)
    as [[[w_mean w_score_total] w_total]|e]; [|done].
  unfold bind at 1, lift at 1.
  destruct (Torch.max _) as [m|e]; done.
Qed.



End step_more.

Section epoch_end_more.

Import SimulationBase Spec MoreSpec Hooks.
Context `{Ext : Externals}.
Variable model_forward : Batch → ModelOut.

Lemma log_and_delete_cases kv (s : ModuleState) :
  metric_d s !! kv.1 = Some kv.2 →
  (kv.2.1 ≠ [] ∧ kv.2.2 ≠ []
   ∧ log_and_delete kv s
     = (Ok (), {| metric_d := delete kv.1 (metric_d s);
                  logged := logged s ++ [epoch_log kv] |}))
  ∨ ((kv.2.1 = [] ∨ kv.2.2 = [])
     ∧ ∃ msg, log_and_delete kv s = (Raise (RuntimeError msg), s)).
Proof.
  intros Hk. destruct kv as [k [num den]]. simpl in *.
  destruct num as [|x num].
  { right. split; [by left|]. by eexists. }
  destruct den as [|y den].
  { right. split; [by right|]. by eexists. }
  left. split; [done|]. split; [done|].
  destruct (log_and_delete (k, (x :: num, y :: den)) s) as [r s1] eqn:Hrun.
  assert (r = Ok ()) as ->.
  { revert Hrun. unfold log_and_delete, bind, lift, log, modify, del_metric.
    cbn -[Torch.sum Torch.div]. rewrite Hk. by intros [= <- _]. }
  f_equal. by apply (log_and_delete_Ok (k, (x :: num, y :: den))).
Qed.

Lemma epoch_loop_outcome (l : list (string * (list Qc * list Qc)))
    (s : ModuleState) :
  NoDup l.*1 →
  (∀ kv, kv ∈ l → metric_d s !! kv.1 = Some kv.2) →
  match for_each l log_and_delete s with
  | (Ok _, _) => Forall (λ kv, kv.2.1 ≠ [] ∧ kv.2.2 ≠ []) l
  | (Raise e, _) =>
      (∃ msg, e = RuntimeError msg)
      ∧ Exists (λ kv, kv.2.1 = [] ∨ kv.2.2 = []) l
  end.
Proof.
  revert s. induction l as [|kv l IH]; intros s Hnd Hin; cbn [for_each].
  - by constructor.
  - rewrite fmap_cons in Hnd. apply NoDup_cons in Hnd as [Hk Hnd].
    unfold bind at 1.
    destruct (log_and_delete_cases kv s) as [(H1 & H2 & ->)|[Hempty [msg ->]]].
    { apply Hin. by left. }
    + specialize (IH {| metric_d := delete kv.1 (metric_d s);
                        logged := logged s ++ [epoch_log kv] |} Hnd).
      destruct (for_each l _ _) as [[[]|e] s2].
      * constructor; [done|]. apply IH. intros kv' Hkv'. cbn [metric_d].
        rewrite lookup_delete_ne; [apply Hin; by right|].
        intros Heq. apply Hk. rewrite Heq. by apply list_elem_of_fmap_2.
      * destruct IH as [Hmsg Hex].
        { intros kv' Hkv'. cbn [metric_d].
          rewrite lookup_delete_ne; [apply Hin; by right|].
          intros Heq. apply Hk. rewrite Heq. by apply list_elem_of_fmap_2. }
        split; [done|]. by right.
    + split; [by eexists|]. by left.
Qed.

Lemma epoch_end_outcome (h : epoch_hook) (st : ModuleState) :
  match run_hook h st with
  | (Ok _, _) => accumulated (hook_substring h) (metric_d st)
  | (Raise e, _) =>
      (∃ msg, e = RuntimeError msg)
      ∧ ¬ accumulated (hook_substring h) (metric_d st)
  end.
Proof.
  rewrite run_hook_unfold. unfold epoch_end_for, bind, get.
  destruct (selected_entries (hook_substring h) (metric_d st))
    as (Hnd & Hl & _).
  set (l := filter _ _) in *.
  pose proof (epoch_loop_outcome l st Hnd) as Hout.
  destruct (for_each l log_and_delete st) as [[[]|e] s1].
  - intros k v Hk Hc.
    assert ((k, v) ∈ l) as Hkv by by apply Hl.
    eapply Forall_forall in Hout; [|by intros kv [? _]%Hl|done]. done.
  - destruct Hout as [Hmsg Hex]; [by intros kv [? _]%Hl|].
    split; [done|]. intros Hacc.
    apply Exists_exists in Hex as ([k v] & [Hk Hc]%Hl & Hempty).
    destruct (Hacc k v Hk Hc) as [H1 H2]. by destruct Hempty.
Qed.

(** X9. An epoch hook returns exactly when every entry it selects holds at
    least one weighted score total and one weight total; when it does not
    return, what it raises is RuntimeError (of [torch.stack] on an empty
    list), never a KeyError of the deletion. *)
Theorem epoch_end_returns_iff (h : epoch_hook) (st : ModuleState) :
  ((∃ st', run_hook h st = (Ok (), st'))
   ↔ accumulated (hook_substring h) (metric_d st))
  ∧ (∀ e st', run_hook h st = (Raise e, st') → ∃ msg, e = RuntimeError msg).
Proof.
  pose proof (epoch_end_outcome h st) as Hout. split; [split|].
  - intros [st' Hrun]. by rewrite Hrun in Hout.
  - apply epoch_end_returns.
  - intros e st' Hrun. rewrite Hrun in Hout. by destruct Hout.
Qed.

Lemma epoch_end_noop (h : epoch_hook) (st : ModuleState) :
  (∀ k, is_Some (metric_d st !! k) → ¬ contains (hook_substring h) k) →
  run_hook h st = (Ok (), st).
Proof.
  intros Hnone. rewrite run_hook_unfold. unfold epoch_end_for, bind, get.
  destruct (selected_entries (hook_substring h) (metric_d st))
    as (_ & Hl & _).
  set (l := filter _ _) in *.
  assert (l = []) as ->; [|done].
  apply elem_of_nil_inv. intros [k v] [Hk Hc]%Hl.
  apply (Hnone k); [by eexists|done].
Qed.

(** X10. When no key of [metric_d] contains the substring of the hook, the
    hook returns and changes nothing: it logs nothing and deletes nothing. *)
Theorem epoch_end_nothing_selected (h : epoch_hook) (st : ModuleState) :
  (∀ k, is_Some (metric_d st !! k) → ¬ contains (hook_substring h) k) →
  run_hook h st = (Ok (), st).
Proof. apply epoch_end_noop. Qed.

(** X11. An epoch hook that has returned has nothing left to do: run again
    on the module it left, it returns and changes nothing. *)
Theorem epoch_end_twice (h : epoch_hook) (st st' : ModuleState) :
  run_hook h st = (Ok (), st') → run_hook h st' = (Ok (), st').
Proof.
  intros Hrun. apply epoch_end_noop. intros k [v Hk] Hc.
  revert Hrun. rewrite run_hook_unfold. unfold epoch_end_for, bind, get.
  destruct (selected_entries (hook_substring h) (metric_d st))
    as (Hnd & Hl & Hkeys).
  set (l := filter _ _) in *. intros Hrun.
  apply epoch_loop_Ok in Hrun as [_ Hmap]; [|done|by intros kv [? _]%Hl].
  rewrite Hmap in Hk. destruct (decide (k ∈ l.*1)) as [|Hnot]; [done|].
  apply Hnot, Hkeys. split; [by eexists|done].
Qed.

Lemma run_call_invariant (self : Self) (c : loop_call) (st : ModuleState) :
  metric_d (run_call model_forward self c st).2 = metric_d st
  ∧ ∃ new,
      logged (run_call model_forward self c st).2 = logged st ++ new
      ∧ Forall (λ c, log_name c = "train_loss_step"
                     ∨ log_name c = "val_loss_step") new.
Proof.
  assert (∀ batch pref,
    pref = "train_" ∨ pref = "val_" →
    metric_d (step model_forward self batch pref st).2 = metric_d st
    ∧ ∃ new,
        logged (step model_forward self batch pref st).2 = logged st ++ new
        ∧ Forall (λ c, log_name c = "train_loss_step"
                       ∨ log_name c = "val_loss_step") new) as Hstep.
  { intros batch pref Hpref. rewrite step_unfold.
    destruct (step_reduce_fn _ _ _ _) as [[[w_mean ?] ?]|e];
      [destruct (Torch.max _) as [m|e]|]; simpl.
    - split; [done|]. eexists. split; [done|]. constructor; [|done].
      simpl. by destruct Hpref as [->| ->]; [left|right].
    - split; [done|]. exists []. by rewrite app_nil_r.
    - split; [done|]. exists []. by rewrite app_nil_r. }
  destruct c as [batch i|batch i|out batch i|out batch i]; simpl.
  - unfold training_step, bind.
    destruct (Hstep batch "train_") as [Hm Hl]; [by left|].
    by destruct (step _ _ _ _ _) as [[?|?] ?].
  - unfold validation_step, bind.
    destruct (Hstep batch "val_") as [Hm Hl]; [by right|].
    by destruct (step _ _ _ _ _) as [[?|?] ?].
  - split; [done|]. exists []. by rewrite app_nil_r.
  - split; [done|]. exists []. by rewrite app_nil_r.
Qed.

Lemma bind_run {S A B} (m : M S A) (f : A → M S B) (s : S) :
  bind m f s
  = match m s with
    | (Ok a, s') => f a s'
    | (Raise e, s') => (Raise e, s')
    end.
Proof. done. Qed.

Lemma run_calls_invariant (self : Self) (cs : list loop_call)
    (st : ModuleState) :
  metric_d (run_calls model_forward self cs st).2 = metric_d st
  ∧ ∃ new,
      logged (run_calls model_forward self cs st).2 = logged st ++ new
      ∧ Forall (λ c, log_name c = "train_loss_step"
                     ∨ log_name c = "val_loss_step") new.
Proof.
  revert st. unfold run_calls.
  induction cs as [|c cs IH]; intros st; cbn [for_each].
  - split; [done|]. exists []. by rewrite app_nil_r.
  - rewrite bind_run.
    destruct (run_call_invariant self c st) as (Hm & new & Hl & Hnew).
    destruct (run_call model_forward self c st) as [[[]|e] s1];
      cbn [snd] in *.
    + destruct (IH s1) as (Hm' & new' & Hl' & Hnew').
      split; [congruence|]. exists (new ++ new').
      split; [by rewrite Hl', Hl, app_assoc|by apply Forall_app].
    + split; [done|]. by exists new.
Qed.

(** X12. In this class nothing ever fills [metric_d]: whatever training
    and validation steps and batch-end hooks have run since [__init__],
    [metric_d] is still empty, only step losses have been logged, and an
    epoch hook run next returns without logging anything. *)
Theorem epoch_end_after_loop (self : Self) (cs : list loop_call)
    (h : epoch_hook) :
  let st := (run_calls model_forward self cs initial_state).2 in
  metric_d st = ∅
  ∧ Forall (λ c, log_name c = "train_loss_step"
                 ∨ log_name c = "val_loss_step") (logged st)
  ∧ run_hook h st = (Ok (), st).
Proof.
  intros st.
  destruct (run_calls_invariant self cs initial_state)
    as (Hm & new & Hl & Hnew).
  fold st in Hm, Hl. split; [done|]. split.
  - rewrite Hl. done.
  - apply epoch_end_noop. intros k [v Hk]. by rewrite Hm in Hk.
Qed.

(** X13. [on_test_batch_end] never returns and never changes the module:
    it raises KeyError when the outputs have no "spec_pred" (the dictionary
    that [step] returns has none) or the batch has no "spec", and the
    NotImplementedError of [evaluate_cos_similarity_step] otherwise. *)
Theorem on_test_batch_end_raises (self : Self)
    (outputs batch : gmap string out_value) (batch_idx : Z)
    (st : ModuleState) :
  on_test_batch_end self outputs batch batch_idx st
  = (Raise match outputs !! "spec_pred", batch !! "spec" with
           | None, _ => KeyError "spec_pred"
           | Some _, None => KeyError "spec"
           | Some _, Some _ => NotImplementedError
           end, st)
  ∧ (∀ b pref st0 st1,
       step model_forward self b pref st0 = (Ok outputs, st1) →
       on_test_batch_end self outputs batch batch_idx st
       = (Raise (KeyError "spec_pred"), st)).
Proof.
  assert (on_test_batch_end self outputs batch batch_idx st
          = (Raise match outputs !! "spec_pred", batch !! "spec" with
                   | None, _ => KeyError "spec_pred"
                   | Some _, None => KeyError "spec"
                   | Some _, Some _ => NotImplementedError
                   end, st)) as Hgen.
  { unfold on_test_batch_end, bind, lift, dict_getitem.
    destruct (outputs !! "spec_pred"); [|done].
    by destruct (batch !! "spec"). }
  split; [done|]. intros b pref st0 st1 Hstep. rewrite Hgen.
  rewrite step_unfold in Hstep.
  destruct (step_reduce_fn _ _ _ _) as [[[w_mean ?] ?]|e]; [|done].
  destruct (Torch.max _) as [m|e]; [|done].
  injection Hstep as <- _. done.
Qed.

End epoch_end_more.

Section configure_more.

Import SimulationBase.
Context `{Ext : Externals}.
Variable build_lr_scheduler : Optimizer → Qc → Z → Z → Scheduler.

(** X14. On a module that does carry an attribute named [optimizer], an
    unknown [hparams.optimizer] raises the ValueError, and its message
    shows that attribute, not the name that was refused. *)
Theorem configure_optimizers_message (self : Self) (v : string) :
  optimizer (hparams self) ∉ ["adam"; "adamw"; "sgd"] →
  attrs self !! "optimizer" = Some v →
  configure_optimizers build_lr_scheduler self
  = ([], Raise (ValueError ("Unknown optimizer " +:+ v))).
Proof.
  intros Hnot Hattr. rewrite configure_unknown by done. by rewrite Hattr.
Qed.

End configure_more.

Section dataset_more.

Import Datasets DataSpec MoreSpec Loaders.
Context `{Ext : Externals}.
Variable LoaderT : Type.
Variable DataLoader : Subset → Z → bool → Z → result LoaderT.

(** X15. The outcomes of [__getitem__]: IndexError for an index that is not
    below the length; KeyError "precursor_mz" when the spectrum lacks that
    field, whether or not it has an adduct; KeyError "adduct" when only the
    adduct is missing; the item otherwise. A missing smiles is no error:
    the molecule transform is then applied to [None]. *)
Theorem getitem_outcomes (self : MassSpecDataset) (i : nat) :
  __getitem__ self i
  = match spectra self !! i with
    | None => Raise IndexError
    | Some s =>
        match metadata s !! "precursor_mz", metadata s !! "adduct" with
        | None, _ => Raise (KeyError "precursor_mz")
        | Some _, None => Raise (KeyError "adduct")
        | Some precursor_mz, Some adduct =>
            Ok {[ "spec" := ItemSpec (spec_preproc self s);
                  "mol" := ItemMol (mol_preproc self (metadata s !! "smiles"));
                  "precursor_mz" := ItemMeta precursor_mz;
                  "adduct" := ItemMeta adduct ]}
        end
    end
  ∧ (is_Some (spectra self !! i) ↔ (i < __len__ self)%nat).
Proof.
  split; [|apply lookup_lt_is_Some].
  destruct (spectra self !! i) as [s|] eqn:Hs.
  - destruct (metadata s !! "precursor_mz") as [p|] eqn:Hp;
      [destruct (metadata s !! "adduct") as [a|] eqn:Ha|].
    + by apply getitem_present.
    + unfold __getitem__, spectra_getitem, metadata_getitem.
      rewrite Hs. simpl. by rewrite Hp, Ha.
    + unfold __getitem__, spectra_getitem, metadata_getitem.
      rewrite Hs. simpl. by rewrite Hp.
  - unfold __getitem__, spectra_getitem. by rewrite Hs.
Qed.

Lemma mapM_result_outcome {A B} (f : A → result B) (l : list A) :
  match mapM f l with
  | Ok k => Forall2 (λ x y, f x = Ok y) l k
  | Raise e => Exists (λ x, f x = Raise e) l
  end.
Proof.
  induction l as [|x l IH]; simpl; [by constructor|].
  destruct (f x) as [y|e] eqn:Hx; simpl; [|by left].
  destruct (mapM f l) as [k|e]; simpl; [by constructor|by right].
Qed.



Lemma Series_getitem_missing (split : Series) (id : Z) :
  occurrences split id = 0%nat →
  Series_getitem split id = Raise (KeyError (pretty id)).
Proof.
  rewrite <- filter_label_length. unfold Series_getitem.
  by destruct (filter _ split).
Qed.

Lemma Series_getitem_present (split : Series) (id : Z) :
  occurrences split id ≠ 0%nat → ∃ x, Series_getitem split id = Ok x.
Proof.
  rewrite <- filter_label_length. unfold Series_getitem.
  destruct (filter _ split) as [|[l c] [|[l' c'] f]]; simpl; [done|..];
    by eexists.
Qed.

Lemma mapM_getitem_missing (split : Series) (idx : list Z) :
  Exists (λ id, occurrences split id = 0%nat) idx →
  ∃ before id after,
    idx = before ++ id :: after
    ∧ Forall (λ id', occurrences split id' ≠ 0%nat) before
    ∧ occurrences split id = 0%nat
    ∧ mapM (Series_getitem split) idx = Raise (KeyError (pretty id)).
Proof.
  induction 1 as [id after Hid|id0 after Hex IH].
  - exists [], id, after. split; [done|]. split; [done|]. split; [done|].
    simpl. by rewrite Series_getitem_missing.
  - destruct (decide (occurrences split id0 = 0%nat)) as [Hz|Hnz].
    + exists [], id0, after. split; [done|]. split; [done|]. split; [done|].
      simpl. by rewrite Series_getitem_missing.
    + destruct IH as (before & id & after' & -> & Hbefore & Hid & Hraise).
      exists (id0 :: before), id, after'.
      split; [done|]. split; [by constructor|]. split; [done|].
      destruct (Series_getitem_present split id0 Hnz) as [x Hx].
      change (mapM (Series_getitem split) (id0 :: before ++ id :: after'))
        with (y ← Series_getitem split id0;
              k ← mapM (Series_getitem split) (before ++ id :: after');
              mret (y :: k)).
      by rewrite Hx, Hraise.
Qed.


Lemma where_from_lengths (k : nat) (cs : list cell) :
  Forall (λ c, ∃ fold, c = CStr fold ∧ fold ∈ fold_names) cs →
  (length (where_from k (eq_mask "train" cs))
   + length (where_from k (eq_mask "val" cs))
   + length (where_from k (eq_mask "test" cs)) = length cs)%nat.
Proof.
  intros Hcs. revert k. induction Hcs as [|c cs (fold & -> & Hfold) _ IH];
    intros k; [done|].
  unfold eq_mask in *. rewrite !fmap_cons. cbn [where_from].
  rewrite !length_app. cbn [length]. rewrite <- (IH (S k)).
  unfold fold_names in Hfold. rewrite !elem_of_cons, elem_of_nil in Hfold.
  destruct Hfold as [->|[->|[->|[]]]]; simpl; lia.
Qed.

(** X19. With every id of the dataset exactly once in the split, no sample
    is lost and none is served twice: the sizes of the train, validation
    and test subsets add up to the size of the dataset. *)
Theorem subset_sizes_add_up (self prepared : MassSpecDataModule)
    (split : Series) :
  prepare_data self = Ok prepared →
  Datasets.split prepared = Some split →
  (∀ id, id ∈ spectra_idx (dataset self) → occurrences split id = 1%nat) →
  ∃ ready,
    setup prepared = Ok ready
    ∧ (length (members ready "train") + length (members ready "val")
       + length (members ready "test")
       = length (spectra_idx (dataset self)))%nat.
Proof.
  intros Hprep Hsplit Honce.
  destruct (prepare_data_Ok self prepared split Hprep Hsplit) as [Hds Hset].
  rewrite <- Hds in *.
  destruct (setup_once prepared split Hsplit Honce)
    as (ready & cs & Hsetup & Hready & Hcs & Hmem).
  exists ready. split; [done|].
  rewrite !Hmem by (unfold fold_names; rewrite !elem_of_cons; auto).
  rewrite (Forall2_length _ _ _ Hcs). simpl. apply where_from_lengths.
  eapply Forall2_Forall_r; [done|]. apply Forall_forall.
  intros id _ c Hin. by eapply fold_of_value.
Qed.

(** X20. [prepare_data] and [setup] can be run again: on the module that
    [prepare_data] returned, [prepare_data] returns the same module, and on
    the module that [setup] returned, [setup] returns the same module. *)
Theorem prepare_and_setup_again (self prepared ready : MassSpecDataModule) :
  prepare_data self = Ok prepared →
  setup prepared = Ok ready →
  prepare_data prepared = Ok prepared ∧ setup ready = Ok ready.
Proof.
  unfold prepare_data, setup.
  destruct (decide _) as [|Hcols]; [done|].
  destruct (set_index_getitem _ _ _) as [split|] eqn:Hsplit; simpl; [|done].
  destruct (decide _) as [|Hfolds]; [done|]. intros [= <-]. simpl.
  destruct (mapM _ _) as [k|] eqn:Hk; simpl; [|done].
  destruct (np_array k) as [mask|] eqn:Hmask; simpl; [|done].
  intros [= <-]. simpl. split.
  - rewrite decide_False by done. rewrite Hsplit. simpl.
    by rewrite decide_False by done.
  - by rewrite Hk; simpl; rewrite Hmask.
Qed.

(** X21. With every id of the dataset exactly once in the split, after
    [setup] each data loader is the DataLoader over the subset of its fold,
    with the batch size and the workers of the module, shuffling for the
    train fold only; and each position of that subset serves the item of a
    dataset index whose spectrum id the split gives to that fold. *)
Theorem loaders_serve_their_fold (self prepared : MassSpecDataModule)
    (split : Series) :
  prepare_data self = Ok prepared →
  Datasets.split prepared = Some split →
  (∀ id, id ∈ spectra_idx (dataset self) → occurrences split id = 1%nat) →
  ∃ ready,
    setup prepared = Ok ready
    ∧ ∀ fold subset loader,
        (fold, subset, loader)
        ∈ [("train", train_dataset ready,
            train_dataloader LoaderT DataLoader ready);
           ("val", val_dataset ready,
            val_dataloader LoaderT DataLoader ready);
           ("test", test_dataset ready,
            test_dataloader LoaderT DataLoader ready)] →
        ∃ d,
          subset = Some d
          ∧ loader = DataLoader d (batch_size self)
                       (bool_decide (fold = "train")) (num_workers self)
          ∧ ∀ j, (j < Subset_len d)%nat →
              ∃ i id,
                indices d !! j = Some i
                ∧ spectra_idx (dataset self) !! i = Some id
                ∧ assigns split id fold
                ∧ Subset_getitem d j = __getitem__ (dataset self) i.
Proof.
  intros Hprep Hsplit Honce.
  destruct (prepare_data_Ok self prepared split Hprep Hsplit) as [Hds Hset].
  assert (batch_size prepared = batch_size self
          ∧ num_workers prepared = num_workers self) as [Hbs Hnw].
  { revert Hprep. unfold prepare_data. destruct (decide _); [done|].
    destruct (set_index_getitem _ _ _); simpl; [|done].
    destruct (decide _); [done|]. by intros [= <-]. }
  rewrite <- Hds in *.
  pose proof (setup_once prepared split Hsplit Honce)
    as (ready & cs & Hsetup & Hready & Hcs & Hmem).
  assert (∃ mask,
    ready = {| dataset := dataset prepared;
               split_pth := split_pth prepared;
               batch_size := batch_size prepared;
               num_workers := num_workers prepared;
               Datasets.split := Some split;
               train_dataset :=
                 Some {| subset_dataset := dataset prepared;
                         indices := np_where_eq mask "train" |};
               val_dataset :=
                 Some {| subset_dataset := dataset prepared;
                         indices := np_where_eq mask "val" |};
               test_dataset :=
                 Some {| subset_dataset := dataset prepared;
                         indices := np_where_eq mask "test" |} |})
    as [mask Hshape].
  { revert Hsetup. unfold setup. rewrite Hsplit. simpl.
    destruct (mapM _ _) as [k|]; simpl; [|done].
    destruct (np_array k) as [mask|]; simpl; [|done].
    intros [= <-]. by exists mask. }
  assert (∀ fold, fold ∈ fold_names →
            np_where_eq mask fold = np_where_eq (Arr1 cs) fold) as Hmask.
  { intros fold Hfold. rewrite <- Hmem by done. rewrite Hshape.
    symmetry. exact (members_setup prepared split mask fold Hfold). }
  exists ready. split; [done|]. rewrite Hshape.
  intros fold subset loader Hin.
  exists {| subset_dataset := dataset prepared;
            indices := np_where_eq mask fold |}.
  assert (fold ∈ fold_names
          ∧ subset = Some {| subset_dataset := dataset prepared;
                             indices := np_where_eq mask fold |}
          ∧ loader = DataLoader
                       {| subset_dataset := dataset prepared;
                          indices := np_where_eq mask fold |}
                       (batch_size prepared) (bool_decide (fold = "train"))
                       (num_workers prepared)) as (Hfold & Hsub & Hload).
  { rewrite !elem_of_cons, elem_of_nil in Hin. unfold fold_names.
    rewrite !elem_of_cons.
    destruct Hin as [[= -> -> ->]|[[= -> -> ->]|[[= -> -> ->]|[]]]]; auto. }
  split; [done|]. split; [by rewrite Hload, Hbs, Hnw|].
  unfold Subset_len, Subset_getitem.
  cbn [indices subset_dataset]. rewrite Hmask by done.
  intros j [i Hi]%lookup_lt_is_Some. exists i.
  assert (i ∈ np_where_eq (Arr1 cs) fold) as Hmember
    by (apply list_elem_of_lookup; eauto).
  apply elem_of_np_where_eq in Hmember.
  destruct (Forall2_lookup_r _ _ _ _ _ Hcs Hmember) as (id & Hid & Hassign).
  exists id. rewrite Hi. done.
Qed.

End dataset_more.

Section more_instances.

Import SimulationBase Spec MoreSpec Hooks Examples MoreExamples.






Lemma epoch_end_nothing_selected_witness :
  run_hook TrainEpochEnd after_train_epoch = (Ok (), after_train_epoch).
Proof.
  apply (epoch_end_nothing_selected TrainEpochEnd after_train_epoch).
  intros k [v Hk]. unfold after_train_epoch in Hk. cbn [metric_d] in Hk.
  apply lookup_singleton_Some in Hk as [<- _]. by vm_compute.
Defined.

Lemma epoch_end_twice_witness :
  run_hook TrainEpochEnd after_train_epoch = (Ok (), after_train_epoch).
Proof.
  apply (epoch_end_twice TrainEpochEnd end_of_epoch after_train_epoch).
  reflexivity.
Defined.

Lemma configure_optimizers_message_witness :
  @configure_optimizers utilities scheduler_of module_with_attribute
  = ([], Raise (ValueError "Unknown optimizer Adam (lr: 0.001)")).
Proof.
  apply (@configure_optimizers_message utilities scheduler_of
           module_with_attribute "Adam (lr: 0.001)"); [|reflexivity].
  change ("rmsprop" ∉ ["adam"; "adamw"; "sgd"]).
  rewrite !not_elem_of_cons. repeat split; try done. apply not_elem_of_nil.
Defined.

Import Datasets DataSpec Loaders.


Lemma subset_sizes_add_up_witness :
  ∃ ready,
    @setup files clean_prepared = Ok ready
    ∧ (length (@members files ready "train")
       + length (@members files ready "val")
       + length (@members files ready "test") = 2)%nat.
Proof.
  apply (@subset_sizes_add_up files (module_of "clean.csv")
           clean_prepared clean_series); [reflexivity|reflexivity|].
  intros id Hid. change (id ∈ [7; 8]%Z) in Hid.
  rewrite !elem_of_cons, elem_of_nil in Hid.
  destruct Hid as [->|[->|[]]]; reflexivity.
Defined.

Lemma prepare_and_setup_again_witness :
  @prepare_data files clean_prepared = Ok clean_prepared
  ∧ @setup files clean_ready = Ok clean_ready.
Proof.
  apply (@prepare_and_setup_again files (module_of "clean.csv")
           clean_prepared clean_ready); reflexivity.
Defined.

Lemma loaders_serve_their_fold_witness :
  ∃ ready,
    @setup files clean_prepared = Ok ready
    ∧ ∀ fold subset loader,
        (fold, subset, loader)
        ∈ [("train", train_dataset ready,
            @train_dataloader files _ checked_loader ready);
           ("val", val_dataset ready,
            @val_dataloader files _ checked_loader ready);
           ("test", test_dataset ready,
            @test_dataloader files _ checked_loader ready)] →
        ∃ d,
          subset = Some d
          ∧ loader = checked_loader d 32%Z (bool_decide (fold = "train")) 0%Z
          ∧ ∀ j, (j < Subset_len d)%nat →
              ∃ i id,
                indices d !! j = Some i
                ∧ [7; 8]%Z !! i = Some id
                ∧ assigns clean_series id fold
                ∧ Subset_getitem d j = @__getitem__ files full_dataset i.
Proof.
  apply (@loaders_serve_their_fold files _ checked_loader
           (module_of "clean.csv") clean_prepared clean_series);
    [reflexivity|reflexivity|].
  intros id Hid. change (id ∈ [7; 8]%Z) in Hid.
  rewrite !elem_of_cons, elem_of_nil in Hid.
  destruct Hid as [->|[->|[]]]; reflexivity.
Defined.

End more_instances.
